(** * WalkerEnv: the control-step state machine of the walker environment

    A shallow embedding of [rg2/csrc/src/WalkerEnv.cpp].  Scalars of type
    [double] are IEEE binary64 numbers (Rocq's primitive floats), Eigen's
    dynamic vectors are lists, the members of the class are the fields of
    a record, and every member function is a computation in a state monad
    whose failures (a failed [assert], a dereferenced null pointer) keep
    the state at the point of failure.  The physics engine and the
    visualization server are external: they enter as an interface. *)

From Stdlib Require Import ZArith Floats Lia.
From stdpp Require Import base option list strings gmap.

Set Warnings "-inexact-float".
Local Open Scope Z_scope.

(** ** IEEE binary64 scalars *)

Module Double.

Definition INT_MIN : Z := - 2 ^ 31.
Definition INT_MAX : Z := 2 ^ 31 - 1.

(** The value of a finite number is [num / den] with [den] a power of
    two. *)
Definition num_den (s : bool) (m : positive) (e : Z) : Z * Z :=
  match e with
  | Zneg p => (cond_Zopp s (Zpos m), 2 ^ Zpos p)
  | _ => (cond_Zopp s (Zpos m) * 2 ^ e, 1)
  end.

(** Rounding toward zero, as the conversion [int(x)] does. *)
Definition trunc_sf (x : spec_float) : option Z :=
  match x with
  | S754_zero _ => Some 0
  | S754_finite s m e => let '(n, d) := num_den s m e in Some (Z.quot n d)
  | _ => None
  end.

(** The mathematical floor, for comparison. *)
Definition floor_sf (x : spec_float) : option Z :=
  match x with
  | S754_zero _ => Some 0
  | S754_finite s m e => let '(n, d) := num_den s m e in Some (Z.div n d)
  | _ => None
  end.

(** Rounding half away from zero, as [std::round]: floor (x + 1/2) for
    x >= 0, and symmetric below zero. *)
Definition round_sf (x : spec_float) : option Z :=
  match x with
  | S754_zero _ => Some 0
  | S754_finite s m e =>
      let '(n, d) := num_den false m e in
      Some (cond_Zopp s (Z.div (2 * n + d) (2 * d)))
  | _ => None
  end.

Definition floor (x : float) : option Z := floor_sf (Prim2SF x).
Definition round (x : float) : option Z := round_sf (Prim2SF x).

(** [int(x)] for a [double] x.  Inside the range of [int] it is the
    truncation.  Outside (and for infinities and NaN) the language
    leaves the conversion undefined; the model takes what the x86-64
    conversion instruction [cvttsd2si] delivers there, the "integer
    indefinite" value [INT_MIN]. *)
Definition to_int (x : float) : Z :=
  match trunc_sf (Prim2SF x) with
  | Some z => if (INT_MIN <=? z) && (z <=? INT_MAX) then z else INT_MIN
  | None => INT_MIN
  end.

(** [float(x)]: rounding to binary32 (24 bits of precision, exponents
    up to 128), to nearest, ties to even. *)
Definition to_float_sf (x : spec_float) : spec_float :=
  match x with
  | S754_finite s m e => binary_round 24 128 s m e
  | _ => x
  end.

(** A binary32 number is held as the binary64 number of the same value:
    widening is exact. *)
Abbreviation float32 := float.

Definition to_float (x : float) : float32 := SF2Prim (to_float_sf (Prim2SF x)).

(** [x.cast<double>()] on one coefficient: the exact widening. *)
Definition cast_double (x : float32) : float := x.

(** [std::min(a, b)] is [(b < a) ? b : a]. *)
Definition std_min (a b : float) : float := if (b <? a)%float then b else a.

End Double.

(** ** Eigen vectors and 3x3 matrices

    [Eigen::VectorXd] is a list of coefficients.  Eigen checks sizes and
    indices with assertions; an operation whose assertion fails has no
    result. *)

Module Eigen.

Abbreviation VectorXd := (list float).
Abbreviation Vector3d := (float * float * float)%type.
(** A matrix is the triple of its rows. *)
Abbreviation Matrix3d := (Vector3d * Vector3d * Vector3d)%type.

Definition size (v : VectorXd) : Z := Z.of_nat (length v).

(** [VectorXd::Zero(n)], [v.setZero(n)]. *)
Definition Zero (n : Z) : option VectorXd :=
  if 0 <=? n then Some (replicate (Z.to_nat n) 0%float) else None.

(** [v.setConstant(c)] keeps the size of [v]. *)
Definition setConstant (c : float) (v : VectorXd) : VectorXd :=
  replicate (length v) c.

(** [v[i]]. *)
Definition coeff (v : VectorXd) (i : Z) : option float :=
  if 0 <=? i then v !! Z.to_nat i else None.

(** [v.tail(n)], the last [n] coefficients. *)
Definition tail (v : VectorXd) (n : Z) : option VectorXd :=
  if (0 <=? n) && (n <=? size v)
  then Some (drop (length v - Z.to_nat n)%nat v) else None.

(** [v.tail(n) = t]. *)
Definition set_tail (v : VectorXd) (n : Z) (t : VectorXd) : option VectorXd :=
  if (0 <=? n) && (n <=? size v) && (size t =? n)
  then Some (take (length v - Z.to_nat n)%nat v ++ t) else None.

(** [v.segment(i, 3)]. *)
Definition segment3 (v : VectorXd) (i : Z) : option Vector3d :=
  if (0 <=? i) && (i + 3 <=? size v)
  then match drop (Z.to_nat i) v with
       | a :: b :: c :: _ => Some (a, b, c)
       | _ => None
       end
  else None.

(** [a.cwiseProduct(b)]. *)
Definition cwiseProduct (a b : VectorXd) : option VectorXd :=
  if size a =? size b then Some (zip_with PrimFloat.mul a b) else None.

(** [a += b]. *)
Definition plus_assign (a b : VectorXd) : option VectorXd :=
  if size a =? size b then Some (zip_with PrimFloat.add a b) else None.

(** [v << b1, b2, ...] into a vector of size [n]: the blocks, in order,
    have to fill it exactly. *)
Definition comma (n : Z) (blocks : list VectorXd) : option VectorXd :=
  let r := concat blocks in
  if size r =? n then Some r else None.

(** [r = v] for a reference [r] to a vector of the caller: a reference
    cannot be resized, so the sizes have to agree. *)
Definition assign_ref (r v : VectorXd) : option VectorXd :=
  if size r =? size v then Some v else None.

(** [v.squaredNorm()], the coefficients accumulated in order. *)
Definition squaredNorm (v : VectorXd) : float :=
  foldl (fun acc x => acc + x * x)%float 0%float v.

Definition to_list (v : Vector3d) : VectorXd :=
  let '(x, y, z) := v in [x; y; z].

(** [m.row(i)] for i = 2. *)
Definition row2 (m : Matrix3d) : Vector3d := snd m.

Definition transpose (m : Matrix3d) : Matrix3d :=
  let '((a00, a01, a02), (a10, a11, a12), (a20, a21, a22)) := m in
  ((a00, a10, a20), (a01, a11, a21), (a02, a12, a22)).

Definition dot (a b : Vector3d) : float :=
  let '(a0, a1, a2) := a in
  let '(b0, b1, b2) := b in
  (a0 * b0 + a1 * b1 + a2 * b2)%float.

(** [m * v]. *)
Definition mul_vec (m : Matrix3d) (v : Vector3d) : Vector3d :=
  let '(r0, r1, r2) := m in (dot r0 v, dot r1 v, dot r2 v).

End Eigen.

(** ** The external collaborators

    The physics engine (raisim's [World] with its one articulated system,
    the robot) and the visualization server are not part of the
    repository.  Their state is abstract and their member functions are
    functions on it; each is named after the member through which the
    environment calls it ([robot_->setState] is [robot_setState]). *)

Record Contact : Type := { getlocalBodyIndex : N }.

Class Raisim : Type := {
  World : Type;
  Server : Type;
  (* raisim::World *)
  World_new : World;
  world_addArticulatedSystem : string -> World -> World;
  world_addGround : World -> World;
  world_setTimeStep : float -> World -> World;
  world_integrate : World -> World;
  (* raisim::ArticulatedSystem *)
  robot_setName : string -> World -> World;
  robot_setControlMode_PD_PLUS_FEEDFORWARD_TORQUE : World -> World;
  robot_getGeneralizedCoordinateDim : World -> nat;
  robot_getDOF : World -> nat;
  robot_getBodyIdx : string -> World -> N;
  robot_setPdGains : Eigen.VectorXd -> Eigen.VectorXd -> World -> World;
  robot_setGeneralizedForce : Eigen.VectorXd -> World -> World;
  robot_setPdTarget : Eigen.VectorXd -> Eigen.VectorXd -> World -> World;
  robot_setState : Eigen.VectorXd -> Eigen.VectorXd -> World -> World;
  robot_getState : World -> Eigen.VectorXd * Eigen.VectorXd;
  robot_getGeneralizedForce : World -> Eigen.VectorXd;
  robot_getContacts : World -> list Contact;
  (* raisim::quatToRotMat *)
  raisim_quatToRotMat : float * float * float * float -> Eigen.Matrix3d;
  (* raisim::RaisimServer *)
  Server_new : World -> Server;
  server_launchServer : Server -> Server;
  server_focusOn : Server -> Server;
  server_killServer : Server -> Server;
  server_lockVisualizationServerMutex : Server -> Server;
  server_unlockVisualizationServerMutex : Server -> Server;
  server_hibernate : Server -> Server;
  server_wakeup : Server -> Server;
  server_startRecordingVideo : string -> Server -> Server;
  server_stopRecordingVideo : Server -> Server
}.

(** ** The environment *)

Section WalkerEnv.

Context `{R : Raisim}.

(** The data members of the class.  The random generator and the normal
    distribution are never used and are left out. *)
Record WalkerEnv : Type := Build_WalkerEnv {
  resourceDir_ : string;
  visualizable_ : bool;
  world_ : World;
  server_ : option Server;
  gcDim_ : Z;
  gvDim_ : Z;
  nJoints_ : Z;
  gc_ : Eigen.VectorXd;
  gcInit_ : Eigen.VectorXd;
  gv_ : Eigen.VectorXd;
  gvInit_ : Eigen.VectorXd;
  pTarget_ : Eigen.VectorXd;
  vTarget_ : Eigen.VectorXd;
  obDim_ : Z;
  actionDim_ : Z;
  actionMean_ : Eigen.VectorXd;
  actionStd_ : Eigen.VectorXd;
  obDouble_ : Eigen.VectorXd;
  footIndices_ : gset N;
  bodyLinearVel_ : Eigen.Vector3d;
  bodyAngularVel_ : Eigen.Vector3d;
  terminalRewardCoeff_ : float;
  simulation_dt_ : float;
  control_dt_ : float
}.

(** Assignment to one member. *)
Definition set_world_ (x : World) (e : WalkerEnv) : WalkerEnv :=
  Build_WalkerEnv (resourceDir_ e) (visualizable_ e) x (server_ e) (gcDim_ e)
    (gvDim_ e) (nJoints_ e) (gc_ e) (gcInit_ e) (gv_ e) (gvInit_ e)
    (pTarget_ e) (vTarget_ e) (obDim_ e) (actionDim_ e) (actionMean_ e)
    (actionStd_ e) (obDouble_ e) (footIndices_ e) (bodyLinearVel_ e)
    (bodyAngularVel_ e) (terminalRewardCoeff_ e) (simulation_dt_ e)
    (control_dt_ e).
Definition set_server_ (x : option Server) (e : WalkerEnv) : WalkerEnv :=
  Build_WalkerEnv (resourceDir_ e) (visualizable_ e) (world_ e) x (gcDim_ e)
    (gvDim_ e) (nJoints_ e) (gc_ e) (gcInit_ e) (gv_ e) (gvInit_ e)
    (pTarget_ e) (vTarget_ e) (obDim_ e) (actionDim_ e) (actionMean_ e)
    (actionStd_ e) (obDouble_ e) (footIndices_ e) (bodyLinearVel_ e)
    (bodyAngularVel_ e) (terminalRewardCoeff_ e) (simulation_dt_ e)
    (control_dt_ e).
Definition set_gcDim_ (x : Z) (e : WalkerEnv) : WalkerEnv :=
  Build_WalkerEnv (resourceDir_ e) (visualizable_ e) (world_ e) (server_ e) x
    (gvDim_ e) (nJoints_ e) (gc_ e) (gcInit_ e) (gv_ e) (gvInit_ e)
    (pTarget_ e) (vTarget_ e) (obDim_ e) (actionDim_ e) (actionMean_ e)
    (actionStd_ e) (obDouble_ e) (footIndices_ e) (bodyLinearVel_ e)
    (bodyAngularVel_ e) (terminalRewardCoeff_ e) (simulation_dt_ e)
    (control_dt_ e).
Definition set_gvDim_ (x : Z) (e : WalkerEnv) : WalkerEnv :=
  Build_WalkerEnv (resourceDir_ e) (visualizable_ e) (world_ e) (server_ e)
    (gcDim_ e) x (nJoints_ e) (gc_ e) (gcInit_ e) (gv_ e) (gvInit_ e)
    (pTarget_ e) (vTarget_ e) (obDim_ e) (actionDim_ e) (actionMean_ e)
    (actionStd_ e) (obDouble_ e) (footIndices_ e) (bodyLinearVel_ e)
    (bodyAngularVel_ e) (terminalRewardCoeff_ e) (simulation_dt_ e)
    (control_dt_ e).
Definition set_nJoints_ (x : Z) (e : WalkerEnv) : WalkerEnv :=
  Build_WalkerEnv (resourceDir_ e) (visualizable_ e) (world_ e) (server_ e)
    (gcDim_ e) (gvDim_ e) x (gc_ e) (gcInit_ e) (gv_ e) (gvInit_ e)
    (pTarget_ e) (vTarget_ e) (obDim_ e) (actionDim_ e) (actionMean_ e)
    (actionStd_ e) (obDouble_ e) (footIndices_ e) (bodyLinearVel_ e)
    (bodyAngularVel_ e) (terminalRewardCoeff_ e) (simulation_dt_ e)
    (control_dt_ e).
Definition set_gc_ (x : Eigen.VectorXd) (e : WalkerEnv) : WalkerEnv :=
  Build_WalkerEnv (resourceDir_ e) (visualizable_ e) (world_ e) (server_ e)
    (gcDim_ e) (gvDim_ e) (nJoints_ e) x (gcInit_ e) (gv_ e) (gvInit_ e)
    (pTarget_ e) (vTarget_ e) (obDim_ e) (actionDim_ e) (actionMean_ e)
    (actionStd_ e) (obDouble_ e) (footIndices_ e) (bodyLinearVel_ e)
    (bodyAngularVel_ e) (terminalRewardCoeff_ e) (simulation_dt_ e)
    (control_dt_ e).
Definition set_gcInit_ (x : Eigen.VectorXd) (e : WalkerEnv) : WalkerEnv :=
  Build_WalkerEnv (resourceDir_ e) (visualizable_ e) (world_ e) (server_ e)
    (gcDim_ e) (gvDim_ e) (nJoints_ e) (gc_ e) x (gv_ e) (gvInit_ e)
    (pTarget_ e) (vTarget_ e) (obDim_ e) (actionDim_ e) (actionMean_ e)
    (actionStd_ e) (obDouble_ e) (footIndices_ e) (bodyLinearVel_ e)
    (bodyAngularVel_ e) (terminalRewardCoeff_ e) (simulation_dt_ e)
    (control_dt_ e).
Definition set_gv_ (x : Eigen.VectorXd) (e : WalkerEnv) : WalkerEnv :=
  Build_WalkerEnv (resourceDir_ e) (visualizable_ e) (world_ e) (server_ e)
    (gcDim_ e) (gvDim_ e) (nJoints_ e) (gc_ e) (gcInit_ e) x (gvInit_ e)
    (pTarget_ e) (vTarget_ e) (obDim_ e) (actionDim_ e) (actionMean_ e)
    (actionStd_ e) (obDouble_ e) (footIndices_ e) (bodyLinearVel_ e)
    (bodyAngularVel_ e) (terminalRewardCoeff_ e) (simulation_dt_ e)
    (control_dt_ e).
Definition set_gvInit_ (x : Eigen.VectorXd) (e : WalkerEnv) : WalkerEnv :=
  Build_WalkerEnv (resourceDir_ e) (visualizable_ e) (world_ e) (server_ e)
    (gcDim_ e) (gvDim_ e) (nJoints_ e) (gc_ e) (gcInit_ e) (gv_ e) x
    (pTarget_ e) (vTarget_ e) (obDim_ e) (actionDim_ e) (actionMean_ e)
    (actionStd_ e) (obDouble_ e) (footIndices_ e) (bodyLinearVel_ e)
    (bodyAngularVel_ e) (terminalRewardCoeff_ e) (simulation_dt_ e)
    (control_dt_ e).
Definition set_pTarget_ (x : Eigen.VectorXd) (e : WalkerEnv) : WalkerEnv :=
  Build_WalkerEnv (resourceDir_ e) (visualizable_ e) (world_ e) (server_ e)
    (gcDim_ e) (gvDim_ e) (nJoints_ e) (gc_ e) (gcInit_ e) (gv_ e) (gvInit_ e)
    x (vTarget_ e) (obDim_ e) (actionDim_ e) (actionMean_ e) (actionStd_ e)
    (obDouble_ e) (footIndices_ e) (bodyLinearVel_ e) (bodyAngularVel_ e)
    (terminalRewardCoeff_ e) (simulation_dt_ e) (control_dt_ e).
Definition set_vTarget_ (x : Eigen.VectorXd) (e : WalkerEnv) : WalkerEnv :=
  Build_WalkerEnv (resourceDir_ e) (visualizable_ e) (world_ e) (server_ e)
    (gcDim_ e) (gvDim_ e) (nJoints_ e) (gc_ e) (gcInit_ e) (gv_ e) (gvInit_ e)
    (pTarget_ e) x (obDim_ e) (actionDim_ e) (actionMean_ e) (actionStd_ e)
    (obDouble_ e) (footIndices_ e) (bodyLinearVel_ e) (bodyAngularVel_ e)
    (terminalRewardCoeff_ e) (simulation_dt_ e) (control_dt_ e).
Definition set_obDim_ (x : Z) (e : WalkerEnv) : WalkerEnv :=
  Build_WalkerEnv (resourceDir_ e) (visualizable_ e) (world_ e) (server_ e)
    (gcDim_ e) (gvDim_ e) (nJoints_ e) (gc_ e) (gcInit_ e) (gv_ e) (gvInit_ e)
    (pTarget_ e) (vTarget_ e) x (actionDim_ e) (actionMean_ e) (actionStd_ e)
    (obDouble_ e) (footIndices_ e) (bodyLinearVel_ e) (bodyAngularVel_ e)
    (terminalRewardCoeff_ e) (simulation_dt_ e) (control_dt_ e).
Definition set_actionDim_ (x : Z) (e : WalkerEnv) : WalkerEnv :=
  Build_WalkerEnv (resourceDir_ e) (visualizable_ e) (world_ e) (server_ e)
    (gcDim_ e) (gvDim_ e) (nJoints_ e) (gc_ e) (gcInit_ e) (gv_ e) (gvInit_ e)
    (pTarget_ e) (vTarget_ e) (obDim_ e) x (actionMean_ e) (actionStd_ e)
    (obDouble_ e) (footIndices_ e) (bodyLinearVel_ e) (bodyAngularVel_ e)
    (terminalRewardCoeff_ e) (simulation_dt_ e) (control_dt_ e).
Definition set_actionMean_ (x : Eigen.VectorXd) (e : WalkerEnv) : WalkerEnv :=
  Build_WalkerEnv (resourceDir_ e) (visualizable_ e) (world_ e) (server_ e)
    (gcDim_ e) (gvDim_ e) (nJoints_ e) (gc_ e) (gcInit_ e) (gv_ e) (gvInit_ e)
    (pTarget_ e) (vTarget_ e) (obDim_ e) (actionDim_ e) x (actionStd_ e)
    (obDouble_ e) (footIndices_ e) (bodyLinearVel_ e) (bodyAngularVel_ e)
    (terminalRewardCoeff_ e) (simulation_dt_ e) (control_dt_ e).
Definition set_actionStd_ (x : Eigen.VectorXd) (e : WalkerEnv) : WalkerEnv :=
  Build_WalkerEnv (resourceDir_ e) (visualizable_ e) (world_ e) (server_ e)
    (gcDim_ e) (gvDim_ e) (nJoints_ e) (gc_ e) (gcInit_ e) (gv_ e) (gvInit_ e)
    (pTarget_ e) (vTarget_ e) (obDim_ e) (actionDim_ e) (actionMean_ e) x
    (obDouble_ e) (footIndices_ e) (bodyLinearVel_ e) (bodyAngularVel_ e)
    (terminalRewardCoeff_ e) (simulation_dt_ e) (control_dt_ e).
Definition set_obDouble_ (x : Eigen.VectorXd) (e : WalkerEnv) : WalkerEnv :=
  Build_WalkerEnv (resourceDir_ e) (visualizable_ e) (world_ e) (server_ e)
    (gcDim_ e) (gvDim_ e) (nJoints_ e) (gc_ e) (gcInit_ e) (gv_ e) (gvInit_ e)
    (pTarget_ e) (vTarget_ e) (obDim_ e) (actionDim_ e) (actionMean_ e)
    (actionStd_ e) x (footIndices_ e) (bodyLinearVel_ e) (bodyAngularVel_ e)
    (terminalRewardCoeff_ e) (simulation_dt_ e) (control_dt_ e).
Definition set_footIndices_ (x : gset N) (e : WalkerEnv) : WalkerEnv :=
  Build_WalkerEnv (resourceDir_ e) (visualizable_ e) (world_ e) (server_ e)
    (gcDim_ e) (gvDim_ e) (nJoints_ e) (gc_ e) (gcInit_ e) (gv_ e) (gvInit_ e)
    (pTarget_ e) (vTarget_ e) (obDim_ e) (actionDim_ e) (actionMean_ e)
    (actionStd_ e) (obDouble_ e) x (bodyLinearVel_ e) (bodyAngularVel_ e)
    (terminalRewardCoeff_ e) (simulation_dt_ e) (control_dt_ e).
Definition set_bodyLinearVel_ (x : Eigen.Vector3d) (e : WalkerEnv) : WalkerEnv :=
  Build_WalkerEnv (resourceDir_ e) (visualizable_ e) (world_ e) (server_ e)
    (gcDim_ e) (gvDim_ e) (nJoints_ e) (gc_ e) (gcInit_ e) (gv_ e) (gvInit_ e)
    (pTarget_ e) (vTarget_ e) (obDim_ e) (actionDim_ e) (actionMean_ e)
    (actionStd_ e) (obDouble_ e) (footIndices_ e) x (bodyAngularVel_ e)
    (terminalRewardCoeff_ e) (simulation_dt_ e) (control_dt_ e).
Definition set_bodyAngularVel_ (x : Eigen.Vector3d) (e : WalkerEnv) : WalkerEnv :=
  Build_WalkerEnv (resourceDir_ e) (visualizable_ e) (world_ e) (server_ e)
    (gcDim_ e) (gvDim_ e) (nJoints_ e) (gc_ e) (gcInit_ e) (gv_ e) (gvInit_ e)
    (pTarget_ e) (vTarget_ e) (obDim_ e) (actionDim_ e) (actionMean_ e)
    (actionStd_ e) (obDouble_ e) (footIndices_ e) (bodyLinearVel_ e) x
    (terminalRewardCoeff_ e) (simulation_dt_ e) (control_dt_ e).
Definition set_simulation_dt_ (x : float) (e : WalkerEnv) : WalkerEnv :=
  Build_WalkerEnv (resourceDir_ e) (visualizable_ e) (world_ e) (server_ e)
    (gcDim_ e) (gvDim_ e) (nJoints_ e) (gc_ e) (gcInit_ e) (gv_ e) (gvInit_ e)
    (pTarget_ e) (vTarget_ e) (obDim_ e) (actionDim_ e) (actionMean_ e)
    (actionStd_ e) (obDouble_ e) (footIndices_ e) (bodyLinearVel_ e)
    (bodyAngularVel_ e) (terminalRewardCoeff_ e) x (control_dt_ e).
Definition set_control_dt_ (x : float) (e : WalkerEnv) : WalkerEnv :=
  Build_WalkerEnv (resourceDir_ e) (visualizable_ e) (world_ e) (server_ e)
    (gcDim_ e) (gvDim_ e) (nJoints_ e) (gc_ e) (gcInit_ e) (gv_ e) (gvInit_ e)
    (pTarget_ e) (vTarget_ e) (obDim_ e) (actionDim_ e) (actionMean_ e)
    (actionStd_ e) (obDouble_ e) (footIndices_ e) (bodyLinearVel_ e)
    (bodyAngularVel_ e) (terminalRewardCoeff_ e) (simulation_dt_ e) x.

(** *** Member functions as stateful computations *)

Inductive failure : Type :=
  | AssertionFailed (expr : string)
  | NullDereference (ptr : string).

Inductive outcome (A : Type) : Type :=
  | Returned (a : A)
  | Aborted (f : failure).

Global Arguments Returned {A} a.
Global Arguments Aborted {A} f.

(** A computation returns a value or aborts; in both cases it leaves the
    members as they are at that point. *)
Definition M (A : Type) : Type := WalkerEnv -> outcome A * WalkerEnv.

#[global] Instance M_ret : MRet M := fun A (a : A) e => (Returned a, e).

#[global] Instance M_bind : MBind M := fun A B (f : A -> M B) (m : M A) e =>
  match m e with
  | (Returned a, e') => f a e'
  | (Aborted x, e') => (Aborted x, e')
  end.

Definition gets {A : Type} (f : WalkerEnv -> A) : M A :=
  fun e => (Returned (f e), e).

Definition modify (f : WalkerEnv -> WalkerEnv) : M unit :=
  fun e => (Returned tt, f e).

Definition abort {A : Type} (x : failure) : M A :=
  fun e => (Aborted x, e).

Definition skip : M unit := mret tt.

(** [assert(b)] of <cassert>. *)
Definition assert (b : bool) (expr : string) : M unit :=
  if b then skip else abort (AssertionFailed expr).

(** An Eigen operation with its own assertion. *)
Definition eigen {A : Type} (r : option A) : M A :=
  match r with
  | Some a => mret a
  | None => abort (AssertionFailed "eigen_assert")
  end.

(** [world_->f(...)] and [robot_->f(...)]. *)
Definition call_world (f : World -> World) : M unit :=
  modify (fun e => set_world_ (f (world_ e)) e).

(** [server_->f(...)]: [server_] is a [unique_ptr], null when the
    environment was built without visualization. *)
Definition call_server (f : Server -> Server) : M unit :=
  s ← gets server_;
  match s with
  | Some srv => modify (set_server_ (Some (f srv)))
  | None => abort (NullDereference "server_")
  end.

(** [if (server_) server_->f(...)]. *)
Definition if_server (f : Server -> Server) : M unit :=
  s ← gets server_;
  match s with
  | Some _ => call_server f
  | None => skip
  end.

(** The default member initializers of [terminalRewardCoeff_],
    [simulation_dt_] and [control_dt_] are written in [WalkerEnv.hpp],
    which is not among the sources: they are parameters. *)
Variable terminalRewardCoeff_default : float.
Variable simulation_dt_default : float.
Variable control_dt_default : float.

(** *** Construction *)

(** The members before the body of the constructor runs. *)
Definition uninitialized (resourceDir : string) (visualizable : bool) : WalkerEnv :=
  {| resourceDir_ := resourceDir; visualizable_ := visualizable;
     world_ := World_new; server_ := None;
     gcDim_ := 0; gvDim_ := 0; nJoints_ := 0;
     gc_ := []; gcInit_ := []; gv_ := []; gvInit_ := [];
     pTarget_ := []; vTarget_ := [];
     obDim_ := 0; actionDim_ := 0;
     actionMean_ := []; actionStd_ := []; obDouble_ := [];
     footIndices_ := ∅;
     bodyLinearVel_ := (0, 0, 0)%float; bodyAngularVel_ := (0, 0, 0)%float;
     terminalRewardCoeff_ := terminalRewardCoeff_default;
     simulation_dt_ := simulation_dt_default;
     control_dt_ := control_dt_default |}.

Definition createWorldAndRobot : M unit :=
  modify (set_world_ World_new);;
  dir ← gets resourceDir_;
  call_world (world_addArticulatedSystem dir);;
  call_world (robot_setName "robot");;
  call_world robot_setControlMode_PD_PLUS_FEEDFORWARD_TORQUE;;
  call_world world_addGround;;
  w ← gets world_;
  modify (set_gcDim_ (Z.of_nat (robot_getGeneralizedCoordinateDim w)));;
  modify (set_gvDim_ (Z.of_nat (robot_getDOF w)));;
  gvDim ← gets gvDim_;
  modify (set_nJoints_ (gvDim - 6)).

(** The standing pose written into [gcInit_]. *)
Definition standing_pose : Eigen.VectorXd :=
  [0; 0; 0.50; 1.0; 0.0; 0.0; 0.0; 0.03; 0.4; -0.8; -0.03; 0.4; -0.8;
   0.03; -0.4; 0.8; -0.03; -0.4; 0.8]%float.

Definition initializeContainers : M unit :=
  gcDim ← gets gcDim_;
  gvDim ← gets gvDim_;
  z ← eigen (Eigen.Zero gcDim); modify (set_gc_ z);;
  z ← eigen (Eigen.Zero gcDim); modify (set_gcInit_ z);;
  z ← eigen (Eigen.Zero gvDim); modify (set_gv_ z);;
  z ← eigen (Eigen.Zero gvDim); modify (set_gvInit_ z);;
  z ← eigen (Eigen.Zero gcDim); modify (set_pTarget_ z);;
  z ← eigen (Eigen.Zero gvDim); modify (set_vTarget_ z);;
  gcInit ← gets gcInit_;
  v ← eigen (Eigen.comma (Eigen.size gcInit) [standing_pose]);
  modify (set_gcInit_ v).

Definition setPdGains : M unit :=
  gvDim ← gets gvDim_;
  nJoints ← gets nJoints_;
  jointPgain ← eigen (Eigen.Zero gvDim);
  jointDgain ← eigen (Eigen.Zero gvDim);
  t ← eigen (Eigen.tail jointPgain nJoints);
  jointPgain ← eigen (Eigen.set_tail jointPgain nJoints (Eigen.setConstant 50.0 t));
  t ← eigen (Eigen.tail jointDgain nJoints);
  jointDgain ← eigen (Eigen.set_tail jointDgain nJoints (Eigen.setConstant 0.2 t));
  call_world (robot_setPdGains jointPgain jointDgain);;
  z ← eigen (Eigen.Zero gvDim);
  call_world (robot_setGeneralizedForce z).

(** [footIndices_.insert(robot_->getBodyIdx(name))]. *)
Definition insert_foot (name : string) : M unit :=
  w ← gets world_;
  modify (fun e => set_footIndices_ ({[ robot_getBodyIdx name w ]} ∪ footIndices_ e) e).

Definition initializeObservationSpace : M unit :=
  nJoints ← gets nJoints_;
  modify (set_obDim_ (1 + 3 + 3 + 3 + nJoints * 2));;
  modify (set_actionDim_ nJoints);;
  actionDim ← gets actionDim_;
  obDim ← gets obDim_;
  z ← eigen (Eigen.Zero actionDim); modify (set_actionMean_ z);;
  z ← eigen (Eigen.Zero actionDim); modify (set_actionStd_ z);;
  z ← eigen (Eigen.Zero obDim); modify (set_obDouble_ z);;
  gcInit ← gets gcInit_;
  t ← eigen (Eigen.tail gcInit nJoints);
  modify (set_actionMean_ t);;
  let action_std := 0.3%float in
  actionStd ← gets actionStd_;
  modify (set_actionStd_ (Eigen.setConstant action_std actionStd));;
  insert_foot "LF_SHANK";;
  insert_foot "RF_SHANK";;
  insert_foot "LH_SHANK";;
  insert_foot "RH_SHANK".

Definition initializeVisualization : M unit :=
  w ← gets world_;
  modify (set_server_ (Some (Server_new w)));;
  call_server server_launchServer;;
  call_server server_focusOn.

(** The body of [WalkerEnv::WalkerEnv]. *)
Definition constructor : M unit :=
  createWorldAndRobot;;
  initializeContainers;;
  setPdGains;;
  initializeObservationSpace;;
  visualizable ← gets visualizable_;
  if (visualizable : bool) then initializeVisualization else skip.

(** [WalkerEnv(resourceDir, visualizable)]. *)
Definition WalkerEnv_new (resourceDir : string) (visualizable : bool)
  : outcome unit * WalkerEnv :=
  constructor (uninitialized resourceDir visualizable).


(** *** The public operations *)

Definition setInitConstants
    (gcInit gvInit actionMean actionStd pGain dGain : Eigen.VectorXd) : M unit :=
  gcDim ← gets gcDim_;
  gvDim ← gets gvDim_;
  actionDim ← gets actionDim_;
  assert (Eigen.size gcInit =? gcDim) "gcInit.size() == gcDim_";;
  assert (Eigen.size gvInit =? gvDim) "gvInit.size() == gvDim_";;
  assert (Eigen.size actionMean =? actionDim) "actionMean.size() == actionDim_";;
  assert (Eigen.size actionStd =? actionDim) "actionStd.size() == actionDim_";;
  assert (Eigen.size pGain =? gvDim) "pGain.size() == gvDim_";;
  assert (Eigen.size dGain =? gvDim) "dGain.size() == gvDim_";;
  modify (set_gcInit_ gcInit);;
  modify (set_gvInit_ gvInit);;
  modify (set_actionMean_ actionMean);;
  modify (set_actionStd_ actionStd);;
  call_world (robot_setPdGains pGain dGain).

Definition updateObservation : M unit :=
  w ← gets world_;
  modify (set_gc_ (fst (robot_getState w)));;
  modify (set_gv_ (snd (robot_getState w)));;
  gc ← gets gc_;
  gv ← gets gv_;
  q0 ← eigen (Eigen.coeff gc 3);
  q1 ← eigen (Eigen.coeff gc 4);
  q2 ← eigen (Eigen.coeff gc 5);
  q3 ← eigen (Eigen.coeff gc 6);
  let rot := raisim_quatToRotMat (q0, q1, q2, q3) in
  lin ← eigen (Eigen.segment3 gv 0);
  modify (set_bodyLinearVel_ (Eigen.mul_vec (Eigen.transpose rot) lin));;
  ang ← eigen (Eigen.segment3 gv 3);
  modify (set_bodyAngularVel_ (Eigen.mul_vec (Eigen.transpose rot) ang));;
  nJoints ← gets nJoints_;
  height ← eigen (Eigen.coeff gc 2);
  jointAngles ← eigen (Eigen.tail gc nJoints);
  bodyLinearVel ← gets bodyLinearVel_;
  bodyAngularVel ← gets bodyAngularVel_;
  jointVel ← eigen (Eigen.tail gv nJoints);
  obDouble ← gets obDouble_;
  ob ← eigen (Eigen.comma (Eigen.size obDouble)
                [[height]; Eigen.to_list (Eigen.row2 rot); jointAngles;
                 Eigen.to_list bodyLinearVel; Eigen.to_list bodyAngularVel;
                 jointVel]);
  modify (set_obDouble_ ob).

Definition init : M unit :=
  gcInit ← gets gcInit_;
  gvInit ← gets gvInit_;
  call_world (robot_setState gcInit gvInit);;
  updateObservation.

Definition reset : M unit :=
  gcInit ← gets gcInit_;
  gvInit ← gets gvInit_;
  call_world (robot_setState gcInit gvInit);;
  updateObservation.

(** The body of the loop of [step], [n] times. *)
Fixpoint integrate_loop (n : nat) : M unit :=
  match n with
  | O => skip
  | S n' =>
      if_server server_lockVisualizationServerMutex;;
      call_world world_integrate;;
      if_server server_unlockVisualizationServerMutex;;
      integrate_loop n'
  end.

(** [int(control_dt_ / simulation_dt_ + 1e-10)], the bound of the loop. *)
Definition loop_bound (control_dt simulation_dt : float) : Z :=
  Double.to_int (control_dt / simulation_dt + 1e-10)%float.

(** The two terms of the reward. *)
Definition torque_term (generalizedForce : Eigen.VectorXd) : float :=
  (-4e-5 * Eigen.squaredNorm generalizedForce)%float.

Definition velocity_term (bodyLinearVel0 : float) : float :=
  (0.3 * Double.std_min 4.0 bodyLinearVel0)%float.

Definition step (action : list Double.float32) : M Double.float32 :=
  let pTargetTail := map Double.cast_double action in
  actionStd ← gets actionStd_;
  pTargetTail ← eigen (Eigen.cwiseProduct pTargetTail actionStd);
  actionMean ← gets actionMean_;
  pTargetTail ← eigen (Eigen.plus_assign pTargetTail actionMean);
  nJoints ← gets nJoints_;
  pTarget ← gets pTarget_;
  pTarget ← eigen (Eigen.set_tail pTarget nJoints pTargetTail);
  modify (set_pTarget_ pTarget);;
  vTarget ← gets vTarget_;
  call_world (robot_setPdTarget pTarget vTarget);;
  control_dt ← gets control_dt_;
  simulation_dt ← gets simulation_dt_;
  (* for (int i = 0; i < bound; i++): the body does not touch the two
     time steps, so the bound is the same at every test *)
  integrate_loop (Z.to_nat (loop_bound control_dt simulation_dt));;
  updateObservation;;
  w ← gets world_;
  bodyLinearVel ← gets bodyLinearVel_;
  let re := Double.to_float
              (torque_term (robot_getGeneralizedForce w)
               + velocity_term (fst (fst bodyLinearVel)))%float in
  mret re.

(** [ob] refers to the buffer of the caller; its new content is
    returned. *)
Definition observe (ob : list Double.float32) : M (list Double.float32) :=
  obDouble ← gets obDouble_;
  eigen (Eigen.assign_ref ob (map Double.to_float obDouble)).

(** The loop of [isTerminalState]: true as soon as a contact is on a
    body that is not a foot. *)
Fixpoint contact_not_foot (footIndices : gset N) (contacts : list Contact) : bool :=
  match contacts with
  | [] => false
  | contact :: rest =>
      if decide (getlocalBodyIndex contact ∈ footIndices)
      then contact_not_foot footIndices rest
      else true
  end.

(** The reference parameter [terminalReward] is returned with the
    result. *)
Definition isTerminalState : M (bool * Double.float32) :=
  c ← gets terminalRewardCoeff_;
  let terminalReward := Double.to_float c in
  w ← gets world_;
  footIndices ← gets footIndices_;
  if contact_not_foot footIndices (robot_getContacts w)
  then mret (true, terminalReward)
  else
    let terminalReward := 0%float in
    mret (false, terminalReward).

Definition curriculumUpdate : M unit := skip.

Definition setSimulationTimeStep (dt : float) : M unit :=
  modify (set_simulation_dt_ dt);;
  call_world (world_setTimeStep dt).

Definition close : M unit := skip.

Definition setSeed (seed : Z) : M unit := skip.

Definition setControlTimeStep (dt : float) : M unit :=
  modify (set_control_dt_ dt).

Definition getObDim : M Z := gets obDim_.
Definition getActionDim : M Z := gets actionDim_.
Definition getControlTimeStep : M float := gets control_dt_.
Definition getSimulationTimeStep : M float := gets simulation_dt_.

Definition turnOffVisualization : M unit := call_server server_hibernate.
Definition turnOnVisualization : M unit := call_server server_wakeup.
Definition startRecordingVideo (videoName : string) : M unit :=
  call_server (server_startRecordingVideo videoName).
Definition stopRecordingVideo : M unit := call_server server_stopRecordingVideo.

(** *** The life of an environment *)

(** A call of the host to one public member function. *)
Inductive call : Type :=
  | Call_setInitConstants
      (gcInit gvInit actionMean actionStd pGain dGain : Eigen.VectorXd)
  | Call_init
  | Call_reset
  | Call_step (action : list Double.float32)
  | Call_observe (ob : list Double.float32)
  | Call_isTerminalState
  | Call_curriculumUpdate
  | Call_setSimulationTimeStep (dt : float)
  | Call_close
  | Call_setSeed (seed : Z)
  | Call_setControlTimeStep (dt : float)
  | Call_getObDim
  | Call_getActionDim
  | Call_getControlTimeStep
  | Call_getSimulationTimeStep
  | Call_turnOffVisualization
  | Call_turnOnVisualization
  | Call_startRecordingVideo (videoName : string)
  | Call_stopRecordingVideo.

(** The call, its result dropped. *)
Definition invoke (c : call) : M unit :=
  match c with
  | Call_setInitConstants gcInit gvInit actionMean actionStd pGain dGain =>
      setInitConstants gcInit gvInit actionMean actionStd pGain dGain
  | Call_init => init
  | Call_reset => reset
  | Call_step action => step action;; skip
  | Call_observe ob => observe ob;; skip
  | Call_isTerminalState => isTerminalState;; skip
  | Call_curriculumUpdate => curriculumUpdate
  | Call_setSimulationTimeStep dt => setSimulationTimeStep dt
  | Call_close => close
  | Call_setSeed seed => setSeed seed
  | Call_setControlTimeStep dt => setControlTimeStep dt
  | Call_getObDim => getObDim;; skip
  | Call_getActionDim => getActionDim;; skip
  | Call_getControlTimeStep => getControlTimeStep;; skip
  | Call_getSimulationTimeStep => getSimulationTimeStep;; skip
  | Call_turnOffVisualization => turnOffVisualization
  | Call_turnOnVisualization => turnOnVisualization
  | Call_startRecordingVideo videoName => startRecordingVideo videoName
  | Call_stopRecordingVideo => stopRecordingVideo
  end.

(** The environments a host can hold: built by the constructor, then
    driven through calls that returned. *)
Inductive reachable : WalkerEnv -> Prop :=
  | reachable_new resourceDir visualizable e :
      WalkerEnv_new resourceDir visualizable = (Returned tt, e) ->
      reachable e
  | reachable_call c e e' :
      reachable e ->
      invoke c e = (Returned tt, e') ->
      reachable e'.

(** *** What the environment relies on from the engine *)

Definition robot_dims (w : World) : nat * nat :=
  (robot_getGeneralizedCoordinateDim w, robot_getDOF w).

(** The robot has fixed dimensions, the state read from it has these
    dimensions, and a state of these dimensions written to it is read
    back. *)
Record RaisimLaws : Prop := {
  getState_size : forall w,
    length (fst (robot_getState w)) = robot_getGeneralizedCoordinateDim w /\
    length (snd (robot_getState w)) = robot_getDOF w;
  getState_setState : forall gc gv w,
    length gc = robot_getGeneralizedCoordinateDim w ->
    length gv = robot_getDOF w ->
    robot_getState (robot_setState gc gv w) = (gc, gv);
  dims_setState : forall gc gv w,
    robot_dims (robot_setState gc gv w) = robot_dims w;
  dims_setPdGains : forall p d w,
    robot_dims (robot_setPdGains p d w) = robot_dims w;
  dims_setPdTarget : forall p v w,
    robot_dims (robot_setPdTarget p v w) = robot_dims w;
  dims_setGeneralizedForce : forall f w,
    robot_dims (robot_setGeneralizedForce f w) = robot_dims w;
  dims_setTimeStep : forall dt w,
    robot_dims (world_setTimeStep dt w) = robot_dims w;
  dims_integrate : forall w,
    robot_dims (world_integrate w) = robot_dims w
}.

(** *** The invariant of the members *)

Record wf (e : WalkerEnv) : Prop := {
  wf_gcDim : gcDim_ e = Z.of_nat (robot_getGeneralizedCoordinateDim (world_ e));
  wf_gvDim : gvDim_ e = Z.of_nat (robot_getDOF (world_ e));
  wf_nJoints : nJoints_ e = gvDim_ e - 6;
  wf_nJoints_range : 0 <= nJoints_ e <= gcDim_ e;
  wf_base : 7 <= gcDim_ e;
  wf_obDim : obDim_ e = 1 + 3 + 3 + 3 + nJoints_ e * 2;
  wf_actionDim : actionDim_ e = nJoints_ e;
  wf_actionMean : Eigen.size (actionMean_ e) = actionDim_ e;
  wf_actionStd : Eigen.size (actionStd_ e) = actionDim_ e;
  wf_obDouble : Eigen.size (obDouble_ e) = obDim_ e;
  wf_gcInit : Eigen.size (gcInit_ e) = gcDim_ e;
  wf_gvInit : Eigen.size (gvInit_ e) = gvDim_ e;
  wf_pTarget_size : Eigen.size (pTarget_ e) = gcDim_ e;
  wf_pTarget_base :
    take (Z.to_nat (gcDim_ e - nJoints_ e)) (pTarget_ e)
    = replicate (Z.to_nat (gcDim_ e - nJoints_ e)) 0%float;
  wf_vTarget : vTarget_ e = replicate (Z.to_nat (gvDim_ e)) 0%float
}.

(** *** The observation as the specification lays it out

    From the generalized coordinates [gc] and velocities [gv] of a robot
    with [nJoints] joints: the base height, the third row of the rotation
    matrix of the base quaternion, the joint angles, the base linear and
    angular velocities multiplied by the transpose of that matrix, and
    the joint velocities.  A coefficient that does not exist reads as
    zero. *)
Definition at_ (v : Eigen.VectorXd) (i : nat) : float := default 0%float (v !! i).

Definition rotate_into_base (rot : Eigen.Matrix3d) (v0 v1 v2 : float) : Eigen.VectorXd :=
  let '((r00, r01, r02), (r10, r11, r12), (r20, r21, r22)) := rot in
  [ r00 * v0 + r10 * v1 + r20 * v2;
    r01 * v0 + r11 * v1 + r21 * v2;
    r02 * v0 + r12 * v1 + r22 * v2 ]%float.

Definition last_n (n : nat) (v : Eigen.VectorXd) : Eigen.VectorXd :=
  drop (length v - n)%nat v.

Definition observation_layout (nJoints : nat) (gc gv : Eigen.VectorXd) : Eigen.VectorXd :=
  let rot := raisim_quatToRotMat (at_ gc 3, at_ gc 4, at_ gc 5, at_ gc 6) in
  let '(_, _, (r20, r21, r22)) := rot in
  [at_ gc 2]
  ++ [r20; r21; r22]
  ++ last_n nJoints gc
  ++ rotate_into_base rot (at_ gv 0) (at_ gv 1) (at_ gv 2)
  ++ rotate_into_base rot (at_ gv 3) (at_ gv 4) (at_ gv 5)
  ++ last_n nJoints gv.

(** The observation is laid out from [gc_] and [gv_], and these are the
    state the engine is in. *)
Definition observation_current (e : WalkerEnv) : Prop :=
  (gc_ e, gv_ e) = robot_getState (world_ e) /\
  obDouble_ e = observation_layout (Z.to_nat (nJoints_ e)) (gc_ e) (gv_ e).

(** The world after [n] integrations. *)
Definition integrated (n : nat) (w : World) : World := Nat.iter n world_integrate w.

(** The observation buffer has the size the constructor fixed and holds
    the current observation. *)
Definition observation_fresh (e : WalkerEnv) : Prop :=
  Eigen.size (obDouble_ e) = obDim_ e /\
  obDim_ e = 1 + 3 + 3 + 3 + 2 * nJoints_ e /\
  observation_current e.

(** *** The members after an operation that returns *)

(** After [updateObservation]. *)
Definition observed (e : WalkerEnv) : WalkerEnv :=
  let gc := fst (robot_getState (world_ e)) in
  let gv := snd (robot_getState (world_ e)) in
  let rot := raisim_quatToRotMat (at_ gc 3, at_ gc 4, at_ gc 5, at_ gc 6) in
  set_obDouble_ (observation_layout (Z.to_nat (nJoints_ e)) gc gv)
    (set_bodyAngularVel_
       (Eigen.mul_vec (Eigen.transpose rot) (at_ gv 3, at_ gv 4, at_ gv 5))
       (set_bodyLinearVel_
          (Eigen.mul_vec (Eigen.transpose rot) (at_ gv 0, at_ gv 1, at_ gv 2))
          (set_gv_ gv (set_gc_ gc e)))).

(** After [init] and after [reset]. *)
Definition restarted (e : WalkerEnv) : WalkerEnv :=
  observed (set_world_ (robot_setState (gcInit_ e) (gvInit_ e) (world_ e)) e).

(** The position target [step] computes from an action. *)
Definition position_target (action : list Double.float32) (e : WalkerEnv)
  : Eigen.VectorXd :=
  take (length (pTarget_ e) - Z.to_nat (nJoints_ e))%nat (pTarget_ e)
  ++ zip_with PrimFloat.add
       (zip_with PrimFloat.mul (map Double.cast_double action) (actionStd_ e))
       (actionMean_ e).

(** The members when the loop of [step] is left. *)
Definition advanced (action : list Double.float32) (e : WalkerEnv) : WalkerEnv :=
  let n := Z.to_nat (loop_bound (control_dt_ e) (simulation_dt_ e)) in
  let pTarget := position_target action e in
  set_server_
    (Nat.iter n (fun s => server_unlockVisualizationServerMutex
                            (server_lockVisualizationServerMutex s))
       <$> server_ e)
    (set_world_
       (integrated n (robot_setPdTarget pTarget (vTarget_ e) (world_ e)))
       (set_pTarget_ pTarget e)).

(** After [step]. *)
Definition stepped (action : list Double.float32) (e : WalkerEnv) : WalkerEnv :=
  observed (advanced action e).

(** The reward [step] returns from the members it leaves. *)
Definition reward (e : WalkerEnv) : Double.float32 :=
  Double.to_float
    (torque_term (robot_getGeneralizedForce (world_ e))
     + velocity_term (fst (fst (bodyLinearVel_ e))))%float.

(** *** The members after each procedure of the constructor *)

(** The world with the robot and the ground in it. *)
Definition loaded (resourceDir : string) : World :=
  world_addGround
    (robot_setControlMode_PD_PLUS_FEEDFORWARD_TORQUE
       (robot_setName "robot" (world_addArticulatedSystem resourceDir World_new))).

(** After [createWorldAndRobot]. *)
Definition created (e : WalkerEnv) : WalkerEnv :=
  let w := loaded (resourceDir_ e) in
  set_nJoints_ (Z.of_nat (robot_getDOF w) - 6)
    (set_gvDim_ (Z.of_nat (robot_getDOF w))
       (set_gcDim_ (Z.of_nat (robot_getGeneralizedCoordinateDim w))
          (set_world_ w e))).

(** After [initializeContainers]. *)
Definition contained (e : WalkerEnv) : WalkerEnv :=
  let zc := replicate (Z.to_nat (gcDim_ e)) 0%float in
  let zv := replicate (Z.to_nat (gvDim_ e)) 0%float in
  set_gcInit_ standing_pose
    (set_vTarget_ zv
       (set_pTarget_ zc
          (set_gvInit_ zv (set_gv_ zv (set_gcInit_ zc (set_gc_ zc e)))))).

(** The gains [setPdGains] hands to the robot: none on the degrees of
    freedom of the base, [g] on every joint. *)
Definition joint_gain (gvDim nJoints : Z) (g : float) : Eigen.VectorXd :=
  replicate (Z.to_nat (gvDim - nJoints)) 0%float
  ++ replicate (Z.to_nat nJoints) g.

(** After [setPdGains]. *)
Definition tuned (e : WalkerEnv) : WalkerEnv :=
  set_world_
    (robot_setGeneralizedForce (replicate (Z.to_nat (gvDim_ e)) 0%float)
       (robot_setPdGains (joint_gain (gvDim_ e) (nJoints_ e) 50.0)
          (joint_gain (gvDim_ e) (nJoints_ e) 0.2) (world_ e)))
    e.

(** The bodies [initializeObservationSpace] registers as feet. *)
Definition feet (w : World) : gset N :=
  {[ robot_getBodyIdx "LF_SHANK" w; robot_getBodyIdx "RF_SHANK" w;
     robot_getBodyIdx "LH_SHANK" w; robot_getBodyIdx "RH_SHANK" w ]}.

(** After [initializeObservationSpace]. *)
Definition spaced (e : WalkerEnv) : WalkerEnv :=
  let nJoints := nJoints_ e in
  set_footIndices_ (feet (world_ e) ∪ footIndices_ e)
    (set_actionStd_ (replicate (Z.to_nat nJoints) 0.3%float)
       (set_actionMean_ (last_n (Z.to_nat nJoints) (gcInit_ e))
          (set_obDouble_
             (replicate (Z.to_nat (1 + 3 + 3 + 3 + nJoints * 2)) 0%float)
             (set_actionDim_ nJoints
                (set_obDim_ (1 + 3 + 3 + 3 + nJoints * 2) e))))).

(** After [initializeVisualization]. *)
Definition visualized (e : WalkerEnv) : WalkerEnv :=
  set_server_
    (Some (server_focusOn (server_launchServer (Server_new (world_ e))))) e.

(** The environment the constructor builds. *)
Definition built (resourceDir : string) (visualizable : bool) : WalkerEnv :=
  let e := spaced (tuned (contained (created (uninitialized resourceDir visualizable)))) in
  if visualizable then visualized e else e.

(** After [setInitConstants]. *)
Definition configured
    (gcInit gvInit actionMean actionStd pGain dGain : Eigen.VectorXd)
    (e : WalkerEnv) : WalkerEnv :=
  set_world_ (robot_setPdGains pGain dGain (world_ e))
    (set_actionStd_ actionStd
       (set_actionMean_ actionMean
          (set_gvInit_ gvInit (set_gcInit_ gcInit e)))).

(** The members after a call that returned. *)
Definition after_call (c : call) (e : WalkerEnv) : WalkerEnv :=
  match c with
  | Call_setInitConstants gcInit gvInit actionMean actionStd pGain dGain =>
      configured gcInit gvInit actionMean actionStd pGain dGain e
  | Call_init | Call_reset => restarted e
  | Call_step action => stepped action e
  | Call_setSimulationTimeStep dt =>
      set_world_ (world_setTimeStep dt (world_ e)) (set_simulation_dt_ dt e)
  | Call_setControlTimeStep dt => set_control_dt_ dt e
  | Call_turnOffVisualization =>
      set_server_ (server_hibernate <$> server_ e) e
  | Call_turnOnVisualization =>
      set_server_ (server_wakeup <$> server_ e) e
  | Call_startRecordingVideo videoName =>
      set_server_ (server_startRecordingVideo videoName <$> server_ e) e
  | Call_stopRecordingVideo =>
      set_server_ (server_stopRecordingVideo <$> server_ e) e
  | Call_observe _ | Call_isTerminalState | Call_curriculumUpdate | Call_close
  | Call_setSeed _ | Call_getObDim | Call_getActionDim
  | Call_getControlTimeStep | Call_getSimulationTimeStep => e
  end.

(** The members no operation assigns once the constructor is done. *)
Definition fixed (e : WalkerEnv)
  : string * bool * Z * Z * Z * Z * Z * gset N * float :=
  (resourceDir_ e, visualizable_ e, gcDim_ e, gvDim_ e, nJoints_ e, obDim_ e,
   actionDim_ e, footIndices_ e, terminalRewardCoeff_ e).

(** The members as the constructor leaves them, [server_] apart: the
    dimensions of the robot, the standing pose with its joint part as
    action mean, the scale 0.3 of every action, zero vectors elsewhere,
    the four shanks as feet, and the defaults of the header. *)
Definition constructed (resourceDir : string) (e : WalkerEnv) : Prop :=
  let zero n := replicate (Z.to_nat n) 0%float in
  gcDim_ e = 19 /\
  gvDim_ e = Z.of_nat (robot_getDOF (loaded resourceDir)) /\
  nJoints_ e = gvDim_ e - 6 /\
  obDim_ e = 2 * gvDim_ e - 2 /\
  actionDim_ e = gvDim_ e - 6 /\
  gcInit_ e = standing_pose /\
  gvInit_ e = zero (gvDim_ e) /\
  (gc_ e, gv_ e) = (zero 19, zero (gvDim_ e)) /\
  (pTarget_ e, vTarget_ e) = (zero 19, zero (gvDim_ e)) /\
  actionMean_ e = last_n (Z.to_nat (nJoints_ e)) standing_pose /\
  actionStd_ e = replicate (Z.to_nat (nJoints_ e)) 0.3%float /\
  obDouble_ e = zero (obDim_ e) /\
  footIndices_ e = feet (world_ e) /\
  (terminalRewardCoeff_ e, simulation_dt_ e, control_dt_ e)
  = (terminalRewardCoeff_default, simulation_dt_default, control_dt_default).

End WalkerEnv.

(** ** A small engine to run the environment on

    A stand-in for the physics engine: a four-legged robot with 19
    generalized coordinates and 18 degrees of freedom whose integration
    step lets the robot sink by a quarter and counts the steps taken.
    The trunk (body 0) touches the ground once the base is below 0.25;
    otherwise two feet do.  The server is the log of the calls it got. *)

Module Toy.

Record world : Type := {
  gc : Eigen.VectorXd;
  gv : Eigen.VectorXd;
  pd_target : Eigen.VectorXd * Eigen.VectorXd;
  pd_gains : Eigen.VectorXd * Eigen.VectorXd;
  force : Eigen.VectorXd;
  time_step : float;
  ticks : nat
}.

Definition empty : world :=
  {| gc := []; gv := []; pd_target := ([], []); pd_gains := ([], []);
     force := []; time_step := 0%float; ticks := 0%nat |}.

Definition load (w : world) : world :=
  {| gc := replicate 19 0%float; gv := replicate 18 0%float;
     pd_target := pd_target w; pd_gains := pd_gains w; force := force w;
     time_step := time_step w; ticks := ticks w |}.

Definition setState (q u : Eigen.VectorXd) (w : world) : world :=
  if decide (length q = length (gc w) /\ length u = length (gv w))
  then {| gc := q; gv := u; pd_target := pd_target w; pd_gains := pd_gains w;
          force := force w; time_step := time_step w; ticks := ticks w |}
  else w.

Definition setPdTarget (p v : Eigen.VectorXd) (w : world) : world :=
  {| gc := gc w; gv := gv w; pd_target := (p, v); pd_gains := pd_gains w;
     force := force w; time_step := time_step w; ticks := ticks w |}.

Definition setPdGains (p d : Eigen.VectorXd) (w : world) : world :=
  {| gc := gc w; gv := gv w; pd_target := pd_target w; pd_gains := (p, d);
     force := force w; time_step := time_step w; ticks := ticks w |}.

Definition setGeneralizedForce (f : Eigen.VectorXd) (w : world) : world :=
  {| gc := gc w; gv := gv w; pd_target := pd_target w; pd_gains := pd_gains w;
     force := f; time_step := time_step w; ticks := ticks w |}.

Definition setTimeStep (dt : float) (w : world) : world :=
  {| gc := gc w; gv := gv w; pd_target := pd_target w; pd_gains := pd_gains w;
     force := force w; time_step := dt; ticks := ticks w |}.

Definition sink (q : Eigen.VectorXd) : Eigen.VectorXd :=
  match q with
  | x :: y :: z :: rest => x :: y :: (z - 0.25)%float :: rest
  | _ => q
  end.

Definition integrate (w : world) : world :=
  {| gc := sink (gc w); gv := gv w; pd_target := pd_target w;
     pd_gains := pd_gains w; force := force w; time_step := time_step w;
     ticks := S (ticks w) |}.

Definition getBodyIdx (name : string) (w : world) : N :=
  if String.eqb name "LF_SHANK" then 3%N
  else if String.eqb name "RF_SHANK" then 6%N
  else if String.eqb name "LH_SHANK" then 9%N
  else if String.eqb name "RH_SHANK" then 12%N
  else 0%N.

Definition getContacts (w : world) : list Contact :=
  match gc w with
  | _ :: _ :: z :: _ =>
      if (z <? 0.25)%float
      then [ {| getlocalBodyIndex := 3 |}; {| getlocalBodyIndex := 0 |} ]
      else [ {| getlocalBodyIndex := 3 |}; {| getlocalBodyIndex := 12 |} ]
  | _ => []
  end.

(** The rotation matrix of the unit quaternion (w, x, y, z). *)
Definition quatToRotMat (q : float * float * float * float) : Eigen.Matrix3d :=
  let '(w, x, y, z) := q in
  ((w * w + x * x - y * y - z * z, 2 * x * y - 2 * w * z, 2 * w * y + 2 * x * z),
   (2 * w * z + 2 * x * y, w * w - x * x + y * y - z * z, 2 * y * z - 2 * w * x),
   (2 * x * z - 2 * w * y, 2 * w * x + 2 * y * z, w * w - x * x - y * y + z * z))%float.

#[global] Instance raisim : Raisim := {|
  World := world;
  Server := list string;
  World_new := empty;
  world_addArticulatedSystem := fun _ => load;
  world_addGround := id;
  world_setTimeStep := setTimeStep;
  world_integrate := integrate;
  robot_setName := fun _ => id;
  robot_setControlMode_PD_PLUS_FEEDFORWARD_TORQUE := id;
  robot_getGeneralizedCoordinateDim := fun w => length (gc w);
  robot_getDOF := fun w => length (gv w);
  robot_getBodyIdx := getBodyIdx;
  robot_setPdGains := setPdGains;
  robot_setGeneralizedForce := setGeneralizedForce;
  robot_setPdTarget := setPdTarget;
  robot_setState := setState;
  robot_getState := fun w => (gc w, gv w);
  robot_getGeneralizedForce := force;
  robot_getContacts := getContacts;
  raisim_quatToRotMat := quatToRotMat;
  Server_new := fun _ => [];
  server_launchServer := cons "launchServer";
  server_focusOn := cons "focusOn";
  server_killServer := cons "killServer";
  server_lockVisualizationServerMutex := cons "lock";
  server_unlockVisualizationServerMutex := cons "unlock";
  server_hibernate := cons "hibernate";
  server_wakeup := cons "wakeup";
  server_startRecordingVideo := fun name => cons ("startRecordingVideo " +:+ name);
  server_stopRecordingVideo := cons "stopRecordingVideo"
|}.

(** The state a computation ends in. *)
Definition after {A : Type} (m : M A) (e : WalkerEnv) : WalkerEnv := snd (m e).

(** An environment without visualization and one with it, built with
    terminal reward coefficient -10, simulation step 0.005 and control
    step 0.02. *)
Definition env0 : WalkerEnv :=
  snd (WalkerEnv_new (-10)%float (0.005)%float (0.02)%float "robot.urdf" false).

Definition env_vis : WalkerEnv :=
  snd (WalkerEnv_new (-10)%float (0.005)%float (0.02)%float "robot.urdf" true).

(** [env0] after a call of [setControlTimeStep] and one of
    [setSimulationTimeStep]. *)
Definition env_timing (control_dt simulation_dt : float) : WalkerEnv :=
  after (setSimulationTimeStep simulation_dt)
    (after (setControlTimeStep control_dt) env0).

Definition action0 : list Double.float32 :=
  [1; 0; 0; 0; 0.5; 0; 0; 0; 0; -1; 0; 0]%float.

End Toy.

(** ** Tactics to run a computation *)

Ltac run_monad :=
  cbv beta iota delta [mbind M_bind gets modify mret M_ret call_world skip].

(** Reading a member after assignments. *)
Ltac members :=
  cbn [resourceDir_ visualizable_ world_ server_ gcDim_ gvDim_ nJoints_
       gc_ gcInit_ gv_ gvInit_ pTarget_ vTarget_ obDim_ actionDim_
       actionMean_ actionStd_ obDouble_ footIndices_ bodyLinearVel_
       bodyAngularVel_ terminalRewardCoeff_ simulation_dt_ control_dt_
       set_world_ set_server_ set_gcDim_ set_gvDim_ set_nJoints_ set_gc_
       set_gcInit_ set_gv_ set_gvInit_ set_pTarget_ set_vTarget_ set_obDim_
       set_actionDim_ set_actionMean_ set_actionStd_ set_obDouble_
       set_footIndices_ set_bodyLinearVel_ set_bodyAngularVel_
       set_simulation_dt_ set_control_dt_ fst snd] in *.

Ltac eigen_ok := cbv beta iota delta [eigen mret M_ret].

(** * Properties *)

(** ** Eigen operations that succeed *)

Lemma size_nonneg (v : Eigen.VectorXd) : 0 <= Eigen.size v.
Proof. unfold Eigen.size. lia. Qed.

Lemma Zero_ok (n : Z) :
  0 <= n -> Eigen.Zero n = Some (replicate (Z.to_nat n) 0%float).
Proof.
  intros Hn. unfold Eigen.Zero.
  destruct (Z.leb_spec 0 n); [reflexivity | lia].
Qed.

Lemma Zero_inv (n : Z) (v : Eigen.VectorXd) :
  Eigen.Zero n = Some v -> 0 <= n /\ v = replicate (Z.to_nat n) 0%float.
Proof.
  unfold Eigen.Zero. destruct (Z.leb_spec 0 n); [|discriminate].
  intros [= <-]. auto.
Qed.

Lemma coeff_at (v : Eigen.VectorXd) (i : Z) :
  0 <= i < Eigen.size v -> Eigen.coeff v i = Some (at_ v (Z.to_nat i)).
Proof.
  intros Hi. unfold Eigen.coeff, at_, Eigen.size in *.
  destruct (Z.leb_spec 0 i); [|lia].
  destruct (lookup_lt_is_Some_2 v (Z.to_nat i)) as [x Hx]; [lia|].
  rewrite Hx. reflexivity.
Qed.

Lemma tail_last_n (v : Eigen.VectorXd) (n : Z) :
  0 <= n <= Eigen.size v -> Eigen.tail v n = Some (last_n (Z.to_nat n) v).
Proof.
  intros Hn. unfold Eigen.tail, last_n.
  destruct (Z.leb_spec 0 n); [|lia].
  destruct (Z.leb_spec n (Eigen.size v)); [reflexivity | lia].
Qed.

Lemma tail_inv (v t : Eigen.VectorXd) (n : Z) :
  Eigen.tail v n = Some t ->
  0 <= n <= Eigen.size v /\ t = last_n (Z.to_nat n) v.
Proof.
  unfold Eigen.tail, last_n.
  destruct (Z.leb_spec 0 n); [|discriminate].
  destruct (Z.leb_spec n (Eigen.size v)); [|discriminate].
  intros [= <-]. auto.
Qed.

Lemma length_last_n (v : Eigen.VectorXd) (n : nat) :
  (n <= length v)%nat -> length (last_n n v) = n.
Proof. intros Hn. unfold last_n. rewrite length_drop. lia. Qed.

Lemma set_tail_ok (v t : Eigen.VectorXd) (n : Z) :
  0 <= n <= Eigen.size v -> Eigen.size t = n ->
  Eigen.set_tail v n t = Some (take (length v - Z.to_nat n)%nat v ++ t).
Proof.
  intros Hn Ht. unfold Eigen.set_tail.
  destruct (Z.leb_spec 0 n); [|lia].
  destruct (Z.leb_spec n (Eigen.size v)); [|lia].
  destruct (Z.eqb_spec (Eigen.size t) n); [reflexivity | lia].
Qed.

Lemma set_tail_inv (v t r : Eigen.VectorXd) (n : Z) :
  Eigen.set_tail v n t = Some r ->
  0 <= n <= Eigen.size v /\ Eigen.size t = n /\
  r = take (length v - Z.to_nat n)%nat v ++ t.
Proof.
  unfold Eigen.set_tail.
  destruct (Z.leb_spec 0 n); [|discriminate].
  destruct (Z.leb_spec n (Eigen.size v)); [|discriminate].
  destruct (Z.eqb_spec (Eigen.size t) n); [|discriminate].
  intros [= <-]. auto.
Qed.

Lemma segment3_at (v : Eigen.VectorXd) (i : Z) :
  0 <= i -> i + 3 <= Eigen.size v ->
  Eigen.segment3 v i
  = Some (at_ v (Z.to_nat i), at_ v (S (Z.to_nat i)), at_ v (S (S (Z.to_nat i)))).
Proof.
  intros Hi Hs. unfold Eigen.segment3, at_, Eigen.size in *.
  destruct (Z.leb_spec 0 i); [|lia].
  destruct (Z.leb_spec (i + 3) (Z.of_nat (length v))); [|lia].
  cbn [andb].
  rewrite <- (take_drop (Z.to_nat i) v) at 2 3 4.
  assert (Hl : length (take (Z.to_nat i) v) = Z.to_nat i)
    by (rewrite length_take; lia).
  assert (Hd : (3 <= length (drop (Z.to_nat i) v))%nat)
    by (rewrite length_drop; lia).
  destruct (drop (Z.to_nat i) v) as [|a [|b [|c rest]]]; cbn in Hd; try lia.
  rewrite !lookup_app_r by lia.
  rewrite Hl.
  replace (Z.to_nat i - Z.to_nat i)%nat with 0%nat by lia.
  replace (S (Z.to_nat i) - Z.to_nat i)%nat with 1%nat by lia.
  replace (S (S (Z.to_nat i)) - Z.to_nat i)%nat with 2%nat by lia.
  reflexivity.
Qed.

Lemma cwiseProduct_ok (a b : Eigen.VectorXd) :
  Eigen.size a = Eigen.size b ->
  Eigen.cwiseProduct a b = Some (zip_with PrimFloat.mul a b).
Proof.
  intros H. unfold Eigen.cwiseProduct.
  destruct (Z.eqb_spec (Eigen.size a) (Eigen.size b)); [reflexivity | lia].
Qed.

Lemma plus_assign_ok (a b : Eigen.VectorXd) :
  Eigen.size a = Eigen.size b ->
  Eigen.plus_assign a b = Some (zip_with PrimFloat.add a b).
Proof.
  intros H. unfold Eigen.plus_assign.
  destruct (Z.eqb_spec (Eigen.size a) (Eigen.size b)); [reflexivity | lia].
Qed.

Lemma comma_ok (n : Z) (blocks : list Eigen.VectorXd) :
  Eigen.size (concat blocks) = n -> Eigen.comma n blocks = Some (concat blocks).
Proof.
  intros H. unfold Eigen.comma.
  destruct (Z.eqb_spec (Eigen.size (concat blocks)) n); [reflexivity | lia].
Qed.

Lemma comma_inv (n : Z) (blocks : list Eigen.VectorXd) (r : Eigen.VectorXd) :
  Eigen.comma n blocks = Some r -> r = concat blocks /\ Eigen.size r = n.
Proof.
  unfold Eigen.comma.
  destruct (Z.eqb_spec (Eigen.size (concat blocks)) n); [|discriminate].
  intros [= <-]. auto.
Qed.

Lemma mul_vec_transpose (rot : Eigen.Matrix3d) (v0 v1 v2 : float) :
  Eigen.to_list (Eigen.mul_vec (Eigen.transpose rot) (v0, v1, v2))
  = rotate_into_base rot v0 v1 v2.
Proof. destruct rot as [[[[? ?] ?] [[? ?] ?]] [[? ?] ?]]. reflexivity. Qed.

(** ** Running computations *)

Section Facts.

Context `{R : Raisim}.

Lemma bind_returned {A B : Type} (m : M A) (f : A -> M B) e a e1 :
  m e = (Returned a, e1) -> (m ≫= f) e = f a e1.
Proof. intros H. unfold mbind, M_bind. rewrite H. reflexivity. Qed.

Lemma bind_aborted {A B : Type} (m : M A) (f : A -> M B) e x e1 :
  m e = (Aborted x, e1) -> (m ≫= f) e = (Aborted x, e1).
Proof. intros H. unfold mbind, M_bind. rewrite H. reflexivity. Qed.

Lemma bind_inv {A B : Type} (m : M A) (f : A -> M B) e b e' :
  (m ≫= f) e = (Returned b, e') ->
  exists a e1, m e = (Returned a, e1) /\ f a e1 = (Returned b, e').
Proof.
  unfold mbind, M_bind. destruct (m e) as [[a|x] e1]; [eauto | discriminate].
Qed.

Lemma eigen_some {A : Type} (r : option A) (a : A) e :
  r = Some a -> eigen r e = (Returned a, e).
Proof. intros ->. reflexivity. Qed.

Lemma eigen_inv {A : Type} (r : option A) (a : A) e e' :
  eigen r e = (Returned a, e') -> r = Some a /\ e' = e.
Proof. destruct r; cbn; [intros [= -> ->]; auto | discriminate]. Qed.

Lemma assert_inv (b : bool) (expr : string) e e' :
  assert b expr e = (Returned tt, e') -> b = true /\ e' = e.
Proof. destruct b; cbn; [intros [= ->]; auto | discriminate]. Qed.

Lemma set_server_same (e : WalkerEnv) : set_server_ (server_ e) e = e.
Proof. destruct e. reflexivity. Qed.

Lemma set_world_same (e : WalkerEnv) : set_world_ (world_ e) e = e.
Proof. destruct e. reflexivity. Qed.

Lemma call_server_none (f : Server -> Server) e :
  server_ e = None -> call_server f e = (Aborted (NullDereference "server_"), e).
Proof. intros H. unfold call_server, mbind, M_bind, gets. rewrite H. reflexivity. Qed.

Lemma call_server_some (f : Server -> Server) e srv :
  server_ e = Some srv ->
  call_server f e = (Returned tt, set_server_ (Some (f srv)) e).
Proof. intros H. unfold call_server, mbind, M_bind, gets. rewrite H. reflexivity. Qed.

Lemma if_server_run (f : Server -> Server) e :
  if_server f e = (Returned tt, set_server_ (f <$> server_ e) e).
Proof.
  unfold if_server, mbind, M_bind, gets.
  destruct (server_ e) as [srv|] eqn:Hs; cbn.
  - rewrite (call_server_some f e srv Hs). reflexivity.
  - rewrite <- Hs, set_server_same. reflexivity.
Qed.

(** The loop of [step] never fails: it integrates [n] times, each time
    between a lock and an unlock of the server when there is one. *)
Lemma integrate_loop_run (n : nat) e :
  integrate_loop n e
  = (Returned tt,
     set_server_
       (Nat.iter n (fun s => server_unlockVisualizationServerMutex
                               (server_lockVisualizationServerMutex s))
          <$> server_ e)
       (set_world_ (integrated n (world_ e)) e)).
Proof.
  revert e. induction n as [|n IH]; intros e.
  - cbn. destruct e as [? ? ? [?|]]; reflexivity.
  - cbn [integrate_loop].
    rewrite (bind_returned _ _ _ _ _ (if_server_run _ e)).
    unfold call_world at 1.
    erewrite bind_returned by reflexivity.
    erewrite bind_returned by apply if_server_run.
    rewrite IH. f_equal. unfold integrated.
    destruct e as [? ? w [srv|]]; cbn -[Nat.iter];
      rewrite ?Nat.iter_succ_r; reflexivity.
Qed.

(** *** One step of a computation *)

Lemma bind_gets {A B : Type} (g : WalkerEnv -> A) (f : A -> M B) e :
  (gets g ≫= f) e = f (g e) e.
Proof. reflexivity. Qed.

Lemma bind_modify {B : Type} (g : WalkerEnv -> WalkerEnv) (f : unit -> M B) e :
  (modify g ≫= f) e = f tt (g e).
Proof. reflexivity. Qed.

Lemma bind_call_world {B : Type} (g : World -> World) (f : unit -> M B) e :
  (call_world g ≫= f) e = f tt (set_world_ (g (world_ e)) e).
Proof. reflexivity. Qed.

Lemma bind_skip {B : Type} (f : unit -> M B) e : (skip ≫= f) e = f tt e.
Proof. reflexivity. Qed.

Lemma bind_eigen_some {A B : Type} (r : option A) (a : A) (f : A -> M B) e :
  r = Some a -> (eigen r ≫= f) e = f a e.
Proof. intros ->. reflexivity. Qed.

Lemma bind_eigen_none {A B : Type} (r : option A) (f : A -> M B) e :
  r = None -> (eigen r ≫= f) e = (Aborted (AssertionFailed "eigen_assert"), e).
Proof. intros ->. reflexivity. Qed.

Lemma bind_eigen_inv {A B : Type} (r : option A) (f : A -> M B) e b e' :
  (eigen r ≫= f) e = (Returned b, e') ->
  exists a, r = Some a /\ f a e = (Returned b, e').
Proof. destruct r as [a|]; [eauto | discriminate]. Qed.

Lemma bind_assert_true {B : Type} (b : bool) expr (f : unit -> M B) e :
  b = true -> (assert b expr ≫= f) e = f tt e.
Proof. intros ->. reflexivity. Qed.

Lemma bind_assert_false {B : Type} (b : bool) expr (f : unit -> M B) e :
  b = false -> (assert b expr ≫= f) e = (Aborted (AssertionFailed expr), e).
Proof. intros ->. reflexivity. Qed.

Lemma bind_assert_inv {B : Type} (b : bool) expr (f : unit -> M B) e r e' :
  (assert b expr ≫= f) e = (Returned r, e') ->
  b = true /\ f tt e = (Returned r, e').
Proof. destruct b; [auto | discriminate]. Qed.

Lemma modify_run (g : WalkerEnv -> WalkerEnv) e : modify g e = (Returned tt, g e).
Proof. reflexivity. Qed.

Lemma call_world_run (g : World -> World) e :
  call_world g e = (Returned tt, set_world_ (g (world_ e)) e).
Proof. reflexivity. Qed.

End Facts.

Section Runs.

Context `{R : Raisim}.

Lemma updateObservation_run e :
  7 <= Eigen.size (fst (robot_getState (world_ e))) ->
  6 <= Eigen.size (snd (robot_getState (world_ e))) ->
  0 <= nJoints_ e <= Eigen.size (fst (robot_getState (world_ e))) ->
  nJoints_ e <= Eigen.size (snd (robot_getState (world_ e))) ->
  Eigen.size (obDouble_ e) = 1 + 3 + 3 + 3 + nJoints_ e * 2 ->
  updateObservation e = (Returned tt, observed e).
Proof.
  intros Hgc Hgv HnJ HnJ' Hob.
  unfold updateObservation, observed. run_monad.
  members.
  set (gc := fst (robot_getState (world_ e))) in *.
  set (gv := snd (robot_getState (world_ e))) in *.
  rewrite !coeff_at by lia.
  eigen_ok.
  rewrite !segment3_at by lia.
  eigen_ok. members.
  rewrite !tail_last_n by lia.
  eigen_ok. members.
  rewrite !mul_vec_transpose.
  rewrite comma_ok.
  - eigen_ok.
    unfold observation_layout.
    destruct (raisim_quatToRotMat _) as [[r0 r1] [[r20 r21] r22]] eqn:Hrot.
    cbn [Eigen.row2 snd Eigen.to_list concat app].
    change (Z.to_nat 0) with 0%nat. change (Z.to_nat 3) with 3%nat.
    change (Z.to_nat 2) with 2%nat.
    rewrite <- !mul_vec_transpose.
    rewrite app_nil_r. reflexivity.
  - destruct (raisim_quatToRotMat _) as [[r0 r1] [[r20 r21] r22]].
    destruct r0 as [[? ?] ?], r1 as [[? ?] ?].
    unfold Eigen.size in *.
    cbn [Eigen.row2 snd Eigen.to_list concat rotate_into_base].
    rewrite !length_app, !length_last_n by lia. cbn [length]. lia.
Qed.

(** *** The invariant is kept *)

Lemma dims_gc (w w' : World) :
  robot_dims w' = robot_dims w ->
  robot_getGeneralizedCoordinateDim w' = robot_getGeneralizedCoordinateDim w.
Proof. unfold robot_dims. congruence. Qed.

Lemma dims_gv (w w' : World) :
  robot_dims w' = robot_dims w -> robot_getDOF w' = robot_getDOF w.
Proof. unfold robot_dims. congruence. Qed.

Lemma dims_integrated (L : RaisimLaws) (n : nat) (w : World) :
  robot_dims (integrated n w) = robot_dims w.
Proof.
  unfold integrated. induction n as [|n IH]; [reflexivity|].
  cbn. rewrite (dims_integrate L). exact IH.
Qed.

Lemma wf_set_world e w :
  wf e -> robot_dims w = robot_dims (world_ e) -> wf (set_world_ w e).
Proof.
  intros [] Hw. constructor; members; try assumption.
  - rewrite (dims_gc _ _ Hw). assumption.
  - rewrite (dims_gv _ _ Hw). assumption.
Qed.

Lemma wf_set_server e s : wf e -> wf (set_server_ s e).
Proof. intros []. constructor; members; assumption. Qed.

Lemma wf_set_control_dt e dt : wf e -> wf (set_control_dt_ dt e).
Proof. intros []. constructor; members; assumption. Qed.

Lemma wf_set_simulation_dt e dt : wf e -> wf (set_simulation_dt_ dt e).
Proof. intros []. constructor; members; assumption. Qed.

Lemma size_observation_layout (nJoints : nat) (gc gv : Eigen.VectorXd) :
  (nJoints <= length gc)%nat -> (nJoints <= length gv)%nat ->
  Eigen.size (observation_layout nJoints gc gv)
  = 1 + 3 + 3 + 3 + Z.of_nat nJoints * 2.
Proof.
  intros Hgc Hgv. unfold observation_layout, Eigen.size.
  destruct (raisim_quatToRotMat _) as [[[[? ?] ?] [[? ?] ?]] [[? ?] ?]].
  cbn [rotate_into_base].
  rewrite !length_app, !length_last_n by assumption. cbn [length]. lia.
Qed.

(** What the engine hands out fits the members. *)
Lemma state_sizes (L : RaisimLaws) e :
  wf e ->
  Eigen.size (fst (robot_getState (world_ e))) = gcDim_ e /\
  Eigen.size (snd (robot_getState (world_ e))) = gvDim_ e.
Proof.
  intros []. destruct (getState_size L (world_ e)) as [Hc Hv].
  unfold Eigen.size. rewrite Hc, Hv. auto.
Qed.

Lemma wf_observed (L : RaisimLaws) e : wf e -> wf (observed e).
Proof.
  intros Hwf. destruct (state_sizes L e Hwf) as [Hc Hv].
  destruct Hwf. unfold observed. constructor; members; try assumption.
  rewrite size_observation_layout; unfold Eigen.size in *; lia.
Qed.

Lemma updateObservation_wf (L : RaisimLaws) e :
  wf e -> updateObservation e = (Returned tt, observed e).
Proof.
  intros Hwf. destruct (state_sizes L e Hwf) as [Hc Hv]. destruct Hwf.
  apply updateObservation_run; lia.
Qed.

Lemma reset_run (L : RaisimLaws) e :
  wf e -> reset e = (Returned tt, restarted e).
Proof.
  intros Hwf. unfold reset, restarted. run_monad.
  apply updateObservation_wf; [exact L|].
  apply wf_set_world; [exact Hwf | apply (dims_setState L)].
Qed.

Lemma init_run (L : RaisimLaws) e :
  wf e -> init e = (Returned tt, restarted e).
Proof. apply (reset_run L). Qed.

Lemma wf_restarted (L : RaisimLaws) e : wf e -> wf (restarted e).
Proof.
  intros Hwf. apply (wf_observed L), wf_set_world;
    [exact Hwf | apply (dims_setState L)].
Qed.

Lemma size_position_target action e :
  wf e -> Eigen.size action = actionDim_ e ->
  Eigen.size (position_target action e) = gcDim_ e /\
  take (Z.to_nat (gcDim_ e - nJoints_ e)) (position_target action e)
  = replicate (Z.to_nat (gcDim_ e - nJoints_ e)) 0%float.
Proof.
  intros [] Ha. unfold position_target, Eigen.size, Double.cast_double in *.
  assert (Hl : (length (pTarget_ e) - Z.to_nat (nJoints_ e))%nat
               = Z.to_nat (gcDim_ e - nJoints_ e)) by lia.
  rewrite Hl. split.
  - rewrite length_app, length_take, !length_zip_with, length_map. lia.
  - rewrite take_app_le by (rewrite length_take; lia).
    rewrite take_take, Nat.min_id. assumption.
Qed.

Lemma wf_advanced (L : RaisimLaws) action e :
  wf e -> Eigen.size action = actionDim_ e -> wf (advanced action e).
Proof.
  intros Hwf Ha. destruct (size_position_target action e Hwf Ha) as [Hs Hb].
  assert (Hd : robot_dims (integrated (Z.to_nat (loop_bound (control_dt_ e) (simulation_dt_ e)))
                 (robot_setPdTarget (position_target action e) (vTarget_ e) (world_ e)))
               = robot_dims (world_ e))
    by (rewrite (dims_integrated L); apply (dims_setPdTarget L)).
  destruct Hwf. unfold advanced. constructor; members; try assumption.
  - rewrite (dims_gc _ _ Hd). assumption.
  - rewrite (dims_gv _ _ Hd). assumption.
Qed.

Lemma wf_stepped (L : RaisimLaws) action e :
  wf e -> Eigen.size action = actionDim_ e -> wf (stepped action e).
Proof. intros Hwf Ha. apply (wf_observed L), (wf_advanced L); assumption. Qed.

(** [step] on an action of the right size returns, with the reward
    computed from the members it leaves. *)
Lemma step_run (L : RaisimLaws) action e :
  wf e -> Eigen.size action = actionDim_ e ->
  step action e = (Returned (reward (stepped action e)), stepped action e).
Proof.
  intros Hwf Ha.
  pose proof (wf_advanced L action e Hwf Ha) as Hadv.
  pose proof (updateObservation_wf L _ Hadv) as Hob.
  destruct Hwf.
  unfold step. run_monad. members.
  rewrite cwiseProduct_ok
    by (unfold Eigen.size, Double.cast_double in *; rewrite length_map; lia).
  eigen_ok.
  rewrite plus_assign_ok
    by (unfold Eigen.size, Double.cast_double in *;
        rewrite length_zip_with, length_map; lia).
  eigen_ok.
  rewrite set_tail_ok;
    [| lia
     | unfold Eigen.size, Double.cast_double in *;
       rewrite !length_zip_with, length_map; lia ].
  eigen_ok. members.
  rewrite integrate_loop_run. members.
  fold (position_target action e).
  match goal with
  | |- context [updateObservation ?x] => change x with (advanced action e)
  end.
  rewrite Hob. reflexivity.
Qed.

Lemma step_abort action e :
  wf e -> Eigen.size action <> actionDim_ e ->
  exists x, step action e = (Aborted x, e).
Proof.
  intros [] Ha. unfold step. run_monad.
  unfold Eigen.cwiseProduct.
  destruct (Z.eqb_spec (Eigen.size (map Double.cast_double action))
              (Eigen.size (actionStd_ e))) as [Heq|Hne].
  - unfold Eigen.size in *. rewrite length_map in Heq. lia.
  - cbn. eauto.
Qed.

End Runs.

(** ** Construction *)

(** From a run that returned, one step back. *)
Ltac back H :=
  repeat first
    [ rewrite bind_gets in H; cbv beta in H
    | rewrite bind_modify in H; cbv beta in H
    | rewrite bind_call_world in H; cbv beta in H
    | rewrite bind_skip in H; cbv beta in H
    | let a := fresh "a" in
      let Ha := fresh "Ha" in
      apply bind_eigen_inv in H as (a & Ha & H); cbv beta in H ].

(** A run, one step forth. *)
Ltac forth :=
  repeat (first [ rewrite bind_gets | rewrite bind_modify
                | rewrite bind_call_world | rewrite bind_skip ];
          cbv beta).

(** An Eigen operation whose assertion holds. *)
Ltac zero_ok :=
  match goal with
  | |- context [eigen (Eigen.Zero ?n)] =>
      rewrite (bind_eigen_some _ _ _ _ (Zero_ok n ltac:(lia)))
  end.

Ltac tail_ok :=
  match goal with
  | |- context [eigen (Eigen.tail ?v ?n)] =>
      rewrite (bind_eigen_some _ _ _ _ (tail_last_n v n ltac:(lia)))
  end.

Section Construction.

Context `{R : Raisim}.

Lemma createWorldAndRobot_run e :
  createWorldAndRobot e = (Returned tt, created e).
Proof. reflexivity. Qed.

Lemma initializeContainers_inv e e' :
  initializeContainers e = (Returned tt, e') ->
  gcDim_ e = 19 /\ 0 <= gvDim_ e /\ e' = contained e.
Proof.
  unfold initializeContainers. intros H. back H. members.
  rewrite modify_run in H. injection H as <-.
  apply Zero_inv in Ha as [Hc ->].
  apply Zero_inv in Ha0 as [_ ->].
  apply Zero_inv in Ha1 as [Hv ->].
  apply Zero_inv in Ha2 as [_ ->].
  apply Zero_inv in Ha3 as [_ ->].
  apply Zero_inv in Ha4 as [_ ->].
  apply comma_inv in Ha5 as [-> Hsz].
  unfold Eigen.size in Hsz. rewrite length_replicate in Hsz.
  cbn [concat standing_pose app length] in Hsz.
  split; [lia | split; [lia|]].
  unfold contained. cbn [concat app]. rewrite app_nil_r. reflexivity.
Qed.

Lemma initializeContainers_run e :
  gcDim_ e = 19 -> 0 <= gvDim_ e ->
  initializeContainers e = (Returned tt, contained e).
Proof.
  intros Hc Hv. unfold initializeContainers.
  rewrite !bind_gets. cbv beta.
  repeat (zero_ok; rewrite bind_modify; cbv beta).
  rewrite bind_gets. cbv beta. members.
  rewrite (bind_eigen_some _ standing_pose).
  - unfold contained. reflexivity.
  - rewrite comma_ok; cbn [concat app]; rewrite app_nil_r; [reflexivity|].
    unfold Eigen.size. rewrite length_replicate, Hc. reflexivity.
Qed.

Lemma joint_gain_tail (gvDim nJoints : Z) (g : float) :
  0 <= nJoints <= gvDim ->
  take (length (replicate (Z.to_nat gvDim) 0%float) - Z.to_nat nJoints)%nat
    (replicate (Z.to_nat gvDim) 0%float)
  ++ Eigen.setConstant g
       (last_n (Z.to_nat nJoints) (replicate (Z.to_nat gvDim) 0%float))
  = joint_gain gvDim nJoints g.
Proof.
  intros H. unfold joint_gain, Eigen.setConstant.
  rewrite length_last_n by (rewrite length_replicate; lia).
  rewrite length_replicate, take_replicate.
  f_equal. f_equal. lia.
Qed.

Lemma setPdGains_run e :
  0 <= nJoints_ e <= gvDim_ e -> setPdGains e = (Returned tt, tuned e).
Proof.
  intros H. unfold setPdGains.
  rewrite !bind_gets. cbv beta.
  do 2 zero_ok.
  assert (Hs : Eigen.size (replicate (Z.to_nat (gvDim_ e)) 0%float) = gvDim_ e)
    by (unfold Eigen.size; rewrite length_replicate; lia).
  tail_ok.
  rewrite (bind_eigen_some _ (joint_gain (gvDim_ e) (nJoints_ e) 50)).
  2:{ rewrite set_tail_ok; [ rewrite joint_gain_tail by lia; reflexivity | lia | ].
      unfold Eigen.size, Eigen.setConstant.
      rewrite length_replicate, length_last_n by (rewrite length_replicate; lia).
      lia. }
  tail_ok.
  rewrite (bind_eigen_some _ (joint_gain (gvDim_ e) (nJoints_ e) 0.2)).
  2:{ rewrite set_tail_ok; [ rewrite joint_gain_tail by lia; reflexivity | lia | ].
      unfold Eigen.size, Eigen.setConstant.
      rewrite length_replicate, length_last_n by (rewrite length_replicate; lia).
      lia. }
  rewrite bind_call_world. zero_ok.
  reflexivity.
Qed.

Lemma setPdGains_inv e e' :
  setPdGains e = (Returned tt, e') ->
  0 <= nJoints_ e <= gvDim_ e /\ e' = tuned e.
Proof.
  intros H.
  assert (Hn : 0 <= nJoints_ e <= gvDim_ e).
  { unfold setPdGains in H. back H.
    apply Zero_inv in Ha as [Hv ->].
    apply tail_inv in Ha1 as [Hn _].
    unfold Eigen.size in Hn. rewrite length_replicate in Hn. lia. }
  rewrite (setPdGains_run e Hn) in H. injection H as <-. auto.
Qed.

Lemma feet_inserted (w : World) (X : gset N) :
  {[ robot_getBodyIdx "RH_SHANK" w ]}
  ∪ ({[ robot_getBodyIdx "LH_SHANK" w ]}
     ∪ ({[ robot_getBodyIdx "RF_SHANK" w ]}
        ∪ ({[ robot_getBodyIdx "LF_SHANK" w ]} ∪ X)))
  = feet w ∪ X.
Proof.
  unfold feet. apply set_eq. intros x.
  rewrite !elem_of_union, !elem_of_singleton. tauto.
Qed.

Lemma bind_insert_foot {B : Type} (name : string) (f : unit -> M B) e :
  (insert_foot name ≫= f) e
  = f tt (set_footIndices_
            ({[ robot_getBodyIdx name (world_ e) ]} ∪ footIndices_ e) e).
Proof. reflexivity. Qed.

Lemma insert_foot_run (name : string) e :
  insert_foot name e
  = (Returned tt,
     set_footIndices_ ({[ robot_getBodyIdx name (world_ e) ]} ∪ footIndices_ e) e).
Proof. reflexivity. Qed.

Lemma initializeObservationSpace_run e :
  0 <= nJoints_ e <= Eigen.size (gcInit_ e) ->
  initializeObservationSpace e = (Returned tt, spaced e).
Proof.
  intros H. unfold initializeObservationSpace.
  forth. members.
  repeat (zero_ok; forth).
  members.
  rewrite (bind_eigen_some _ _ _ _ (tail_last_n _ _ H)).
  forth. rewrite !bind_insert_foot, insert_foot_run. members.
  unfold spaced. rewrite feet_inserted.
  unfold Eigen.setConstant. rewrite length_replicate. reflexivity.
Qed.

Lemma initializeObservationSpace_inv e e' :
  initializeObservationSpace e = (Returned tt, e') ->
  0 <= nJoints_ e <= Eigen.size (gcInit_ e) /\ e' = spaced e.
Proof.
  intros H.
  assert (Hn : 0 <= nJoints_ e <= Eigen.size (gcInit_ e)).
  { unfold initializeObservationSpace in H. back H. members.
    apply tail_inv in Ha2 as [Hn _]. exact Hn. }
  rewrite (initializeObservationSpace_run e Hn) in H. injection H as <-. auto.
Qed.

Lemma initializeVisualization_run e :
  initializeVisualization e = (Returned tt, visualized e).
Proof. reflexivity. Qed.

End Construction.

Section Life.

Context `{R : Raisim}.
Variables c0 s0 d0 : float.

(** The constructor returns exactly on a robot of 19 generalized
    coordinates and 6 to 25 degrees of freedom. *)
Lemma constructor_run resourceDir visualizable :
  robot_getGeneralizedCoordinateDim (loaded resourceDir) = 19%nat ->
  (6 <= robot_getDOF (loaded resourceDir) <= 25)%nat ->
  WalkerEnv_new c0 s0 d0 resourceDir visualizable
  = (Returned tt, built c0 s0 d0 resourceDir visualizable).
Proof.
  intros Hc Hv. unfold WalkerEnv_new, constructor, built.
  set (e0 := uninitialized c0 s0 d0 resourceDir visualizable).
  assert (Hr : resourceDir_ e0 = resourceDir) by reflexivity.
  rewrite (bind_returned _ _ _ _ _ (createWorldAndRobot_run e0)).
  assert (H1 : initializeContainers (created e0) = (Returned tt, contained (created e0))).
  { apply initializeContainers_run; unfold created; members; rewrite Hr; lia. }
  rewrite (bind_returned _ _ _ _ _ H1).
  assert (H2 : setPdGains (contained (created e0))
               = (Returned tt, tuned (contained (created e0)))).
  { apply setPdGains_run; unfold contained, created; members; rewrite Hr; lia. }
  rewrite (bind_returned _ _ _ _ _ H2).
  assert (H3 : initializeObservationSpace (tuned (contained (created e0)))
               = (Returned tt, spaced (tuned (contained (created e0))))).
  { apply initializeObservationSpace_run.
    unfold tuned, contained, created; members. rewrite Hr.
    unfold Eigen.size. cbn [standing_pose length]. lia. }
  rewrite (bind_returned _ _ _ _ _ H3).
  rewrite bind_gets.
  replace (visualizable_ (spaced (tuned (contained (created e0)))))
    with visualizable by reflexivity.
  generalize (spaced (tuned (contained (created e0)))). intros e.
  destruct visualizable; reflexivity.
Qed.

Lemma constructor_inv resourceDir visualizable e :
  WalkerEnv_new c0 s0 d0 resourceDir visualizable = (Returned tt, e) ->
  robot_getGeneralizedCoordinateDim (loaded resourceDir) = 19%nat /\
  (6 <= robot_getDOF (loaded resourceDir) <= 25)%nat /\
  e = built c0 s0 d0 resourceDir visualizable.
Proof.
  intros H.
  assert (Hd : robot_getGeneralizedCoordinateDim (loaded resourceDir) = 19%nat /\
               (6 <= robot_getDOF (loaded resourceDir) <= 25)%nat).
  { unfold WalkerEnv_new, constructor in H.
    set (e0 := uninitialized c0 s0 d0 resourceDir visualizable) in H.
    assert (Hr : resourceDir_ e0 = resourceDir) by reflexivity.
    rewrite (bind_returned _ _ _ _ _ (createWorldAndRobot_run e0)) in H.
    apply bind_inv in H as ([] & e1 & H1 & H).
    apply initializeContainers_inv in H1 as (Hc & _ & ->).
    apply bind_inv in H as ([] & e2 & H2 & H).
    apply setPdGains_inv in H2 as (Hn & ->).
    apply bind_inv in H as ([] & e3 & H3 & _).
    apply initializeObservationSpace_inv in H3 as (Hn' & _).
    unfold tuned, contained, created in *. members. rewrite Hr in *.
    unfold Eigen.size in Hn'. cbn [standing_pose length] in Hn'. lia. }
  destruct Hd as [Hc Hv].
  rewrite (constructor_run _ _ Hc Hv) in H. injection H as <-. auto.
Qed.

End Life.

(** ** The life of an environment *)

Section Invariant.

Context `{R : Raisim}.
Variables c0 s0 d0 : float.

Lemma dims_loaded_tuned (L : RaisimLaws) e :
  robot_dims (world_ (tuned e)) = robot_dims (world_ e).
Proof.
  unfold tuned. members.
  rewrite (dims_setGeneralizedForce L). apply (dims_setPdGains L).
Qed.

Lemma wf_built (L : RaisimLaws) resourceDir visualizable :
  robot_getGeneralizedCoordinateDim (loaded resourceDir) = 19%nat ->
  (6 <= robot_getDOF (loaded resourceDir) <= 25)%nat ->
  wf (built c0 s0 d0 resourceDir visualizable).
Proof.
  intros Hc Hv.
  assert (Hw : wf (spaced (tuned (contained (created
                 (uninitialized c0 s0 d0 resourceDir visualizable)))))).
  { set (e0 := uninitialized c0 s0 d0 resourceDir visualizable).
    assert (Hr : resourceDir_ e0 = resourceDir) by reflexivity.
    pose proof (dims_loaded_tuned L (contained (created e0))) as Hd.
    pose proof (dims_gc _ _ Hd) as Hdc. pose proof (dims_gv _ _ Hd) as Hdv.
    clear Hd. clearbody e0.
    unfold spaced, tuned, contained, created in *. members.
    rewrite Hr in *.
    constructor; members; unfold Eigen.size;
      rewrite ?Hdc, ?Hdv, ?Hr, ?length_replicate, ?take_replicate;
      try (rewrite length_last_n by (cbn [standing_pose length]; lia));
      cbn [standing_pose length]; try lia.
    all: try (f_equal; lia). }
  unfold built. cbv zeta. destruct visualizable; [|exact Hw].
  apply wf_set_server, Hw.
Qed.

Lemma constructor_wf (L : RaisimLaws) resourceDir visualizable e :
  WalkerEnv_new c0 s0 d0 resourceDir visualizable = (Returned tt, e) -> wf e.
Proof.
  intros H. apply constructor_inv in H as (Hc & Hv & ->).
  apply (wf_built L); assumption.
Qed.

End Invariant.

(** ** The public operations, one by one *)

Section Calls.

Context `{R : Raisim}.

Lemma skip_run e : skip e = (Returned tt, e).
Proof. reflexivity. Qed.

Lemma setInitConstants_run gcInit gvInit actionMean actionStd pGain dGain e :
  Eigen.size gcInit = gcDim_ e -> Eigen.size gvInit = gvDim_ e ->
  Eigen.size actionMean = actionDim_ e -> Eigen.size actionStd = actionDim_ e ->
  Eigen.size pGain = gvDim_ e -> Eigen.size dGain = gvDim_ e ->
  setInitConstants gcInit gvInit actionMean actionStd pGain dGain e
  = (Returned tt, configured gcInit gvInit actionMean actionStd pGain dGain e).
Proof.
  intros. unfold setInitConstants. forth.
  rewrite !bind_assert_true by (apply Z.eqb_eq; assumption).
  forth. reflexivity.
Qed.

Lemma setInitConstants_abort gcInit gvInit actionMean actionStd pGain dGain e :
  Eigen.size gcInit <> gcDim_ e \/ Eigen.size gvInit <> gvDim_ e \/
  Eigen.size actionMean <> actionDim_ e \/ Eigen.size actionStd <> actionDim_ e \/
  Eigen.size pGain <> gvDim_ e \/ Eigen.size dGain <> gvDim_ e ->
  exists expr,
    setInitConstants gcInit gvInit actionMean actionStd pGain dGain e
    = (Aborted (AssertionFailed expr), e).
Proof.
  intros H. unfold setInitConstants. forth.
  repeat match goal with
         | |- context [assert (?a =? ?b) _] =>
             destruct (Z.eqb_spec a b);
             [ rewrite bind_assert_true by reflexivity
             | rewrite bind_assert_false by reflexivity; eauto ]
         end.
  exfalso. tauto.
Qed.

Lemma setInitConstants_inv gcInit gvInit actionMean actionStd pGain dGain e e' :
  setInitConstants gcInit gvInit actionMean actionStd pGain dGain e
  = (Returned tt, e') ->
  (Eigen.size gcInit = gcDim_ e /\ Eigen.size gvInit = gvDim_ e /\
   Eigen.size actionMean = actionDim_ e /\ Eigen.size actionStd = actionDim_ e /\
   Eigen.size pGain = gvDim_ e /\ Eigen.size dGain = gvDim_ e) /\
  e' = configured gcInit gvInit actionMean actionStd pGain dGain e.
Proof.
  intros H.
  destruct (decide (Eigen.size gcInit = gcDim_ e /\ Eigen.size gvInit = gvDim_ e /\
                    Eigen.size actionMean = actionDim_ e /\
                    Eigen.size actionStd = actionDim_ e /\
                    Eigen.size pGain = gvDim_ e /\ Eigen.size dGain = gvDim_ e))
    as [Hs|Hs].
  - split; [exact Hs|]. destruct Hs as (? & ? & ? & ? & ? & ?).
    rewrite setInitConstants_run in H by assumption. injection H as <-. reflexivity.
  - destruct (setInitConstants_abort gcInit gvInit actionMean actionStd pGain dGain e)
      as [x Hx]; [lia | congruence].
Qed.

Lemma wf_configured (L : RaisimLaws) gcInit gvInit actionMean actionStd pGain dGain e :
  wf e ->
  Eigen.size gcInit = gcDim_ e -> Eigen.size gvInit = gvDim_ e ->
  Eigen.size actionMean = actionDim_ e -> Eigen.size actionStd = actionDim_ e ->
  wf (configured gcInit gvInit actionMean actionStd pGain dGain e).
Proof.
  intros Hwf ? ? ? ?.
  pose proof (dims_setPdGains L pGain dGain (world_ e)) as Hd.
  destruct Hwf. unfold configured. constructor; members; try assumption.
  - rewrite (dims_gc _ _ Hd). assumption.
  - rewrite (dims_gv _ _ Hd). assumption.
Qed.

Lemma step_inv (L : RaisimLaws) action e r e' :
  wf e -> step action e = (Returned r, e') ->
  Eigen.size action = actionDim_ e /\
  r = reward (stepped action e) /\ e' = stepped action e.
Proof.
  intros Hwf H.
  destruct (decide (Eigen.size action = actionDim_ e)) as [Ha|Ha].
  - rewrite (step_run L) in H by assumption. injection H as <- <-. auto.
  - destruct (step_abort action e Hwf Ha) as [x Hx]. congruence.
Qed.

Lemma observe_run ob e :
  Eigen.size ob = Eigen.size (obDouble_ e) ->
  observe ob e = (Returned (map Double.to_float (obDouble_ e)), e).
Proof.
  intros H. unfold observe. forth. apply eigen_some.
  unfold Eigen.assign_ref, Eigen.size in *. rewrite length_map.
  destruct (Z.eqb_spec (Z.of_nat (length ob)) (Z.of_nat (length (obDouble_ e))));
    [reflexivity | contradiction].
Qed.

Lemma observe_abort ob e :
  Eigen.size ob <> Eigen.size (obDouble_ e) ->
  observe ob e = (Aborted (AssertionFailed "eigen_assert"), e).
Proof.
  intros H. unfold observe. forth.
  unfold Eigen.assign_ref, Eigen.size in *. rewrite length_map.
  destruct (Z.eqb_spec (Z.of_nat (length ob)) (Z.of_nat (length (obDouble_ e))));
    [contradiction | reflexivity].
Qed.

Lemma observe_inv ob e r e' :
  observe ob e = (Returned r, e') ->
  Eigen.size ob = Eigen.size (obDouble_ e) /\
  r = map Double.to_float (obDouble_ e) /\ e' = e.
Proof.
  intros H.
  destruct (decide (Eigen.size ob = Eigen.size (obDouble_ e))) as [Hs|Hs].
  - rewrite (observe_run ob e Hs) in H. injection H as <- <-. auto.
  - rewrite (observe_abort ob e Hs) in H. discriminate.
Qed.

Lemma isTerminalState_run e :
  isTerminalState e
  = (Returned
       (if contact_not_foot (footIndices_ e) (robot_getContacts (world_ e))
        then (true, Double.to_float (terminalRewardCoeff_ e))
        else (false, 0%float)),
     e).
Proof.
  unfold isTerminalState. forth.
  destruct (contact_not_foot _ _); reflexivity.
Qed.

Lemma setSimulationTimeStep_run dt e :
  setSimulationTimeStep dt e
  = (Returned tt,
     set_world_ (world_setTimeStep dt (world_ e)) (set_simulation_dt_ dt e)).
Proof. reflexivity. Qed.

Lemma setControlTimeStep_run dt e :
  setControlTimeStep dt e = (Returned tt, set_control_dt_ dt e).
Proof. reflexivity. Qed.

Lemma call_server_inv (f : Server -> Server) e e' :
  call_server f e = (Returned tt, e') ->
  exists srv, server_ e = Some srv /\ e' = set_server_ (f <$> server_ e) e.
Proof.
  destruct (server_ e) as [srv|] eqn:Hs.
  - rewrite (call_server_some f e srv Hs). intros [= <-]. eauto.
  - rewrite (call_server_none f e Hs). discriminate.
Qed.

(** A call that returns leaves the members [after_call] gives, and they
    satisfy the invariant again. *)
Lemma invoke_inv (L : RaisimLaws) c e e' :
  wf e -> invoke c e = (Returned tt, e') -> e' = after_call c e /\ wf e'.
Proof.
  intros Hwf H. destruct c; cbn [invoke after_call] in *.
  - apply setInitConstants_inv in H as ((? & ? & ? & ? & ? & ?) & ->).
    split; [reflexivity | apply (wf_configured L); assumption].
  - rewrite (init_run L e Hwf) in H. injection H as <-.
    split; [reflexivity | apply (wf_restarted L), Hwf].
  - rewrite (reset_run L e Hwf) in H. injection H as <-.
    split; [reflexivity | apply (wf_restarted L), Hwf].
  - apply bind_inv in H as (r & e1 & H1 & H2).
    apply (step_inv L) in H1 as (Ha & _ & ->); [|exact Hwf].
    rewrite skip_run in H2. injection H2 as <-.
    split; [reflexivity | apply (wf_stepped L); assumption].
  - apply bind_inv in H as (r & e1 & H1 & H2).
    apply observe_inv in H1 as (_ & _ & ->).
    rewrite skip_run in H2. injection H2 as <-. auto.
  - rewrite (bind_returned _ _ _ _ _ (isTerminalState_run e)), skip_run in H.
    injection H as <-. auto.
  - injection H as <-. auto.
  - rewrite setSimulationTimeStep_run in H. injection H as <-.
    split; [reflexivity|].
    apply wf_set_world; [apply wf_set_simulation_dt, Hwf | apply (dims_setTimeStep L)].
  - injection H as <-. auto.
  - injection H as <-. auto.
  - rewrite setControlTimeStep_run in H. injection H as <-.
    split; [reflexivity | apply wf_set_control_dt, Hwf].
  - injection H as <-. auto.
  - injection H as <-. auto.
  - injection H as <-. auto.
  - injection H as <-. auto.
  - apply call_server_inv in H as (srv & _ & ->).
    split; [reflexivity | apply wf_set_server, Hwf].
  - apply call_server_inv in H as (srv & _ & ->).
    split; [reflexivity | apply wf_set_server, Hwf].
  - apply call_server_inv in H as (srv & _ & ->).
    split; [reflexivity | apply wf_set_server, Hwf].
  - apply call_server_inv in H as (srv & _ & ->).
    split; [reflexivity | apply wf_set_server, Hwf].
Qed.

End Calls.

Section Reachable.

Context `{R : Raisim}.
Variables c0 s0 d0 : float.

(** Every environment a host can hold satisfies the invariant. *)
Lemma reachable_wf (L : RaisimLaws) e : reachable c0 s0 d0 e -> wf e.
Proof.
  induction 1 as [resourceDir visualizable e H | c e e' _ IH H].
  - exact (constructor_wf c0 s0 d0 L _ _ _ H).
  - exact (proj2 (invoke_inv L c e e' IH H)).
Qed.

End Reachable.

(** ** Binary64 numbers *)

Lemma digits2_pos_gt (m : positive) : Zpos m < 2 ^ Zpos (digits2_pos m).
Proof.
  induction m as [m IH|m IH|]; cbn [digits2_pos];
    rewrite ?Pos2Z.inj_succ, ?Z.pow_succ_r by lia; lia.
Qed.

Lemma digits2_pos_le (m : positive) : 2 ^ (Zpos (digits2_pos m) - 1) <= Zpos m.
Proof.
  induction m as [m IH|m IH|]; cbn [digits2_pos];
    rewrite ?Pos2Z.inj_succ;
    try (replace (Z.succ (Zpos (digits2_pos m)) - 1)
           with (Z.succ (Zpos (digits2_pos m) - 1)) by lia;
         rewrite Z.pow_succ_r by lia);
    try lia.
Qed.

(** A number with at most [k] digits. *)
Lemma digits2_pos_bound (m : positive) (k : Z) :
  Zpos m < 2 ^ k -> Zpos (digits2_pos m) <= k.
Proof.
  intros H. pose proof (digits2_pos_le m) as Hl.
  destruct (Z.le_gt_cases (Zpos (digits2_pos m)) k) as [|Hk]; [assumption|].
  assert (2 ^ k <= 2 ^ (Zpos (digits2_pos m) - 1)); [|lia].
  destruct (Z.le_gt_cases 0 k).
  - apply Z.pow_le_mono_r; lia.
  - rewrite (Z.pow_neg_r 2 k) by lia. apply Z.pow_nonneg. lia.
Qed.

(** The denominator of a finite number is positive. *)
Lemma num_den_pos (s : bool) (m : positive) (e : Z) :
  0 < snd (Double.num_den s m e).
Proof.
  unfold Double.num_den. destruct e; cbn [snd]; lia.
Qed.

Lemma num_den_sign (s : bool) (m : positive) (e : Z) :
  if s then fst (Double.num_den s m e) < 0 else 0 < fst (Double.num_den s m e).
Proof.
  unfold Double.num_den.
  destruct e as [|p|p], s; cbn [fst cond_Zopp]; lia.
Qed.

(** [int(x)] makes no iteration of a loop when the truncation is not
    positive. *)
Lemma to_int_nonpos (x : float) :
  match Double.trunc_sf (Prim2SF x) with Some z => z <= 0 | None => True end ->
  Z.to_nat (Double.to_int x) = 0%nat.
Proof.
  unfold Double.to_int. destruct (Double.trunc_sf (Prim2SF x)) as [z|]; [|reflexivity].
  intros Hz. destruct ((Double.INT_MIN <=? z) && (z <=? Double.INT_MAX)).
  - lia.
  - reflexivity.
Qed.

Lemma Prim2SF_one : Prim2SF 1 = S754_finite false 4503599627370496 (-52).
Proof. vm_compute. reflexivity. Qed.

(** Comparison of two positive finite numbers. *)
Lemma SFcompare_finite_pos (m1 m2 : positive) (e1 e2 : Z) :
  SFcompare (S754_finite false m1 e1) (S754_finite false m2 e2)
  = Some match e1 ?= e2 with
         | Lt => Lt
         | Gt => Gt
         | Eq => Zpos m1 ?= Zpos m2
         end.
Proof.
  unfold SFcompare. destruct (e1 ?= e2); reflexivity.
Qed.

Lemma SFltb_finite_pos (m1 m2 : positive) (e1 e2 : Z) :
  SFltb (S754_finite false m1 e1) (S754_finite false m2 e2) = true ->
  e1 < e2 \/ (e1 = e2 /\ Zpos m1 < Zpos m2).
Proof.
  unfold SFltb. rewrite SFcompare_finite_pos.
  destruct (Z.compare_spec e1 e2); try discriminate; [|auto].
  destruct (Z.compare_spec (Zpos m1) (Zpos m2)); try discriminate. auto.
Qed.

Lemma SFleb_finite_pos (m1 m2 : positive) (e1 e2 : Z) :
  e1 < e2 \/ (e1 = e2 /\ Zpos m1 <= Zpos m2) ->
  SFleb (S754_finite false m1 e1) (S754_finite false m2 e2) = true.
Proof.
  unfold SFleb. rewrite SFcompare_finite_pos. intros H.
  destruct (Z.compare_spec e1 e2); [|reflexivity|lia].
  destruct (Z.compare_spec (Zpos m1) (Zpos m2)); [reflexivity|reflexivity|lia].
Qed.

(** The mantissa of a binary64 number has at most 53 digits, and
    exactly 53 above the least exponent. *)
Lemma valid_digits (s : bool) (m : positive) (e : Z) :
  valid_binary (S754_finite s m e) = true ->
  Zpos (digits2_pos m) <= 53 /\ -1074 <= e <= 971 /\
  (-1074 < e -> Zpos (digits2_pos m) = 53).
Proof.
  unfold valid_binary, bounded, canonical_mantissa, fexp, emin, prec, emax.
  intros Hv. apply andb_prop in Hv as [Hc He].
  apply Z.eqb_eq in Hc. apply Z.leb_le in He. lia.
Qed.

Lemma valid_mantissa (s : bool) (m : positive) (e : Z) :
  valid_binary (S754_finite s m e) = true ->
  Zpos m < 2 ^ 53 /\ (-1074 < e -> 2 ^ 52 <= Zpos m).
Proof.
  intros Hv. apply valid_digits in Hv as (Hd & _ & Hn).
  pose proof (digits2_pos_gt m) as Hg. pose proof (digits2_pos_le m) as Hl.
  split.
  - eapply Z.lt_le_trans; [exact Hg|]. apply Z.pow_le_mono_r; lia.
  - intros He. rewrite (Hn He) in Hl. exact Hl.
Qed.

(** A positive number below one has an exponent below -52. *)
Lemma below_one (m : positive) (e : Z) :
  valid_binary (S754_finite false m e) = true ->
  SFltb (S754_finite false m e) (S754_finite false 4503599627370496 (-52)) = true ->
  e <= -53 /\ Zpos m < 2 ^ 53.
Proof.
  intros Hv Hlt. apply SFltb_finite_pos in Hlt.
  apply valid_mantissa in Hv as [Hm Hn]. split; [|exact Hm].
  destruct Hlt as [He|[He Hlt]]; [lia|].
  exfalso. specialize (Hn ltac:(lia)). change (2 ^ 52) with 4503599627370496 in Hn.
  lia.
Qed.

(** Below one, the truncation is not positive. *)
Lemma to_int_lt_one (x : float) :
  (x <? 1)%float = true -> Z.to_nat (Double.to_int x) = 0%nat.
Proof.
  intros Hlt. apply to_int_nonpos.
  rewrite ltb_spec, Prim2SF_one in Hlt. pose proof (Prim2SF_valid x) as Hv.
  destruct (Prim2SF x) as [s|s| |s m e]; cbn [Double.trunc_sf]; try lia; try exact I.
  pose proof (num_den_pos s m e) as Hd. pose proof (num_den_sign s m e) as Hn.
  destruct s.
  - destruct (Double.num_den true m e) as [n d]. cbn [fst snd] in *.
    apply Z.quot_le_upper_bound; lia.
  - destruct (below_one m e Hv Hlt) as [He Hm].
    unfold Double.num_den in *.
    destruct e as [|p|p]; try lia. cbn [cond_Zopp].
    rewrite Z.quot_small; [lia|]. split; [lia|].
    eapply Z.lt_le_trans; [exact Hm|]. apply Z.pow_le_mono_r; lia.
Qed.


(** Where the floor is a number from 0 to the largest [int], [int(x)] is
    the floor. *)
Lemma to_int_floor_nonneg (x : float) (k : Z) :
  Double.floor x = Some k -> 0 <= k <= Double.INT_MAX -> Double.to_int x = k.
Proof.
  unfold Double.floor, Double.to_int. intros Hf Hk.
  destruct (Prim2SF x) as [s|s| |s m e]; cbn [Double.floor_sf Double.trunc_sf] in *;
    try discriminate.
  - injection Hf as <-. reflexivity.
  - pose proof (num_den_pos s m e) as Hd. pose proof (num_den_sign s m e) as Hn.
    destruct (Double.num_den s m e) as [n d]. cbn [fst snd] in *.
    injection Hf as <-.
    unfold Double.INT_MIN, Double.INT_MAX in *.
    destruct s.
    + assert (n / d < 0) by (apply Z.div_lt_upper_bound; lia). lia.
    + rewrite Z.quot_div_nonneg by lia.
      destruct (Z.leb_spec (- 2 ^ 31) (n / d)); [|lia].
      destruct (Z.leb_spec (n / d) (2 ^ 31 - 1)); cbn [andb]; lia.
Qed.

(** ** Rounding to binary64 *)

Lemma shr_1_m (mrs : shr_record) :
  0 <= shr_m mrs -> shr_m (shr_1 mrs) = shr_m mrs / 2.
Proof.
  destruct mrs as [m r s]. cbn [shr_m]. intros Hm.
  rewrite <- Z.div2_div. destruct m as [|p|p]; [reflexivity| |lia].
  destruct p; reflexivity.
Qed.

Lemma iter_shr_1_m (n : positive) (mrs : shr_record) :
  0 <= shr_m mrs ->
  shr_m (SpecFloat.iter_pos shr_1 n mrs) = shr_m mrs / 2 ^ Zpos n.
Proof.
  revert mrs. induction n as [n IH|n IH|]; intros mrs Hm;
    cbn [SpecFloat.iter_pos].
  - assert (H1 : 0 <= shr_m (shr_1 mrs))
      by (rewrite shr_1_m by assumption; apply Z.div_pos; lia).
    assert (H2 : 0 <= shr_m (SpecFloat.iter_pos shr_1 n (shr_1 mrs)))
      by (rewrite IH by assumption; apply Z.div_pos; lia).
    rewrite IH, IH, shr_1_m by assumption.
    replace (2 ^ Zpos n~1) with (2 * 2 ^ Zpos n * 2 ^ Zpos n).
    + rewrite !Z.div_div by lia. f_equal. lia.
    + rewrite <- Z.mul_assoc, <- Z.pow_add_r, <- Z.pow_succ_r by lia.
      f_equal. lia.
  - assert (H2 : 0 <= shr_m (SpecFloat.iter_pos shr_1 n mrs))
      by (rewrite IH by assumption; apply Z.div_pos; lia).
    rewrite IH, IH by assumption.
    replace (2 ^ Zpos n~0) with (2 ^ Zpos n * 2 ^ Zpos n).
    + rewrite !Z.div_div by lia. reflexivity.
    + rewrite <- Z.pow_add_r by lia. f_equal. lia.
  - rewrite shr_1_m by assumption. reflexivity.
Qed.

(** A shift to the right divides the mantissa and raises the exponent. *)
Lemma shr_m_e (mrs : shr_record) (e n : Z) :
  0 <= shr_m mrs ->
  shr_m (fst (shr mrs e n)) = shr_m mrs / 2 ^ Z.max 0 n /\
  snd (shr mrs e n) = e + Z.max 0 n.
Proof.
  intros Hm. unfold shr. destruct n as [|p|p]; cbn [fst snd].
  - rewrite Z.div_1_r. split; [reflexivity | lia].
  - rewrite iter_shr_1_m by assumption. split; [reflexivity | lia].
  - rewrite Z.div_1_r. split; [reflexivity | lia].
Qed.

Lemma round_nearest_even_bounds (m : Z) (l : location) :
  m <= round_nearest_even m l <= m + 1.
Proof.
  unfold round_nearest_even. destruct l as [|[]]; try lia.
  destruct (Z.even m); lia.
Qed.

(** Rounding a positive number that lies below [M * 2 ^ eb], a number
    of the format, gives zero or a number that does not exceed it. *)
Lemma binary_round_aux_below (s : bool) (p : positive) (E M eb : Z) :
  E <= fexp prec emax (Zpos (digits2_pos p) + E) <= eb ->
  eb <= 971 -> 2 ^ 52 <= M < 2 ^ 53 ->
  Zpos p < M * 2 ^ (eb - E) ->
  binary_round_aux prec emax s (Zpos p) E loc_Exact = S754_zero s \/
  exists m e,
    binary_round_aux prec emax s (Zpos p) E loc_Exact = S754_finite s m e /\
    (e < eb \/ (e = eb /\ Zpos m <= M)).
Proof.
  intros He Heb HM Hp.
  unfold binary_round_aux, shr_fexp. cbn [Zdigits2 shr_record_of_loc].
  set (e1 := fexp prec emax (Zpos (digits2_pos p) + E)) in *.
  assert (He1 : -1074 <= e1 /\ Zpos (digits2_pos p) + E - 53 <= e1)
    by (subst e1; unfold fexp, emin, prec, emax; lia).
  set (mrs0 := {| shr_m := Zpos p; shr_r := false; shr_s := false |}).
  destruct (shr_m_e mrs0 E (e1 - E)) as [Hm1 He1']; [cbn; lia|].
  destruct (shr mrs0 E (e1 - E)) as [mrs1 e1'].
  cbn [fst snd shr_m mrs0] in Hm1, He1'.
  rewrite Z.max_r in Hm1, He1' by lia.
  replace (E + (e1 - E)) with e1 in He1' by lia. subst e1'.
  pose proof (round_nearest_even_bounds (shr_m mrs1) (loc_of_shr_record mrs1)) as Hr.
  assert (H2 : 0 < 2 ^ (e1 - E)) by (apply Z.pow_pos_nonneg; lia).
  assert (Hlo : 0 <= shr_m mrs1) by (rewrite Hm1; apply Z.div_pos; lia).
  assert (Hhi : shr_m mrs1 < 2 ^ 53).
  { rewrite Hm1. apply Z.div_lt_upper_bound; [exact H2|].
    pose proof (digits2_pos_gt p) as Hg.
    eapply Z.lt_le_trans; [exact Hg|].
    rewrite <- Z.pow_add_r by lia. apply Z.pow_le_mono_r; lia. }
  assert (Heq : e1 = eb -> shr_m mrs1 < M).
  { intros Hb. rewrite Hm1. apply Z.div_lt_upper_bound; [exact H2|].
    rewrite Hb, Z.mul_comm. exact Hp. }
  destruct (round_nearest_even (shr_m mrs1) (loc_of_shr_record mrs1))
    as [|q|q]; [| |lia].
  - left. cbn [Zdigits2]. unfold shr.
    assert (Hn : fexp prec emax (0 + e1) - e1 <= 0)
      by (unfold fexp, emin, prec, emax; lia).
    destruct (fexp prec emax (0 + e1) - e1); [reflexivity|lia|reflexivity].
  - right. cbn [Zdigits2].
    pose proof (digits2_pos_le q) as Hl.
    assert (Hd : Zpos (digits2_pos q) <= 54)
      by (apply digits2_pos_bound; change (2 ^ 54) with (2 * 2 ^ 53); lia).
    destruct (Z.eq_dec (Zpos (digits2_pos q)) 54) as [H54|H54].
    + rewrite H54 in *. change (2 ^ (54 - 1)) with (2 ^ 53) in Hl.
      assert (Hq : Zpos q = 9007199254740992)
        by (change 9007199254740992 with (2 ^ 53); lia).
      injection Hq as ->.
      replace (fexp prec emax (54 + e1) - e1) with 1
        by (unfold fexp, emin, prec, emax; lia).
      cbn [shr SpecFloat.iter_pos shr_1 shr_m].
      change (2 ^ 53) with 9007199254740992 in *.
      change (2 ^ 52) with 4503599627370496 in *.
      exists 4503599627370496%positive, (e1 + 1).
      destruct (Z.leb_spec (e1 + 1) (emax - prec)) as [_|Hx];
        [|unfold emax, prec in Hx; lia].
      split; [reflexivity | lia].
    + assert (Hn : fexp prec emax (Zpos (digits2_pos q) + e1) - e1 <= 0)
        by (unfold fexp, emin, prec, emax; lia).
      unfold shr. exists q, e1.
      destruct (fexp prec emax (Zpos (digits2_pos q) + e1) - e1);
        [|lia|]; cbn [shr_m];
        (destruct (Z.leb_spec e1 (emax - prec)) as [_|Hx];
         [|unfold emax, prec in Hx; lia]);
        (split; [reflexivity | lia]).
Qed.

(** Rounding keeps the sign and never ends in NaN. *)
Lemma binary_round_aux_sign (s : bool) (p : positive) (E : Z) :
  binary_round_aux prec emax s (Zpos p) E loc_Exact = S754_zero s \/
  binary_round_aux prec emax s (Zpos p) E loc_Exact = S754_infinity s \/
  exists m e, binary_round_aux prec emax s (Zpos p) E loc_Exact = S754_finite s m e.
Proof.
  unfold binary_round_aux, shr_fexp. cbn [Zdigits2 shr_record_of_loc].
  set (mrs0 := {| shr_m := Zpos p; shr_r := false; shr_s := false |}).
  set (n1 := fexp prec emax (Zpos (digits2_pos p) + E) - E).
  destruct (shr_m_e mrs0 E n1) as [Hm1 _]; [cbn; lia|].
  destruct (shr mrs0 E n1) as [mrs1 e1]. cbn [fst shr_m mrs0] in Hm1.
  assert (Hlo : 0 <= shr_m mrs1)
    by (rewrite Hm1; apply Z.div_pos; [lia | apply Z.pow_pos_nonneg; lia]).
  pose proof (round_nearest_even_bounds (shr_m mrs1) (loc_of_shr_record mrs1)) as Hr.
  set (m1 := round_nearest_even (shr_m mrs1) (loc_of_shr_record mrs1)) in *.
  set (n2 := fexp prec emax (Zdigits2 m1 + e1) - e1).
  set (mrs := {| shr_m := m1; shr_r := false; shr_s := false |}).
  destruct (shr_m_e mrs e1 n2) as [Hm2 _]; [cbn; lia|].
  destruct (shr mrs e1 n2) as [mrs2 e2]. cbn [fst shr_m mrs] in Hm2.
  assert (Hlo2 : 0 <= shr_m mrs2)
    by (rewrite Hm2; apply Z.div_pos; [lia | apply Z.pow_pos_nonneg; lia]).
  destruct (shr_m mrs2) as [|q|q]; [auto| |lia].
  destruct (e2 <=? emax - prec); eauto.
Qed.

Lemma Prim2SF_0_3 :
  Prim2SF 0.3 = S754_finite false 5404319552844595 (-54).
Proof. vm_compute. reflexivity. Qed.

Lemma Prim2SF_1_2 :
  Prim2SF 1.2 = S754_finite false 5404319552844595 (-52).
Proof. vm_compute. reflexivity. Qed.

Lemma Prim2SF_4 : Prim2SF 4 = S754_finite false 4503599627370496 (-50).
Proof. vm_compute. reflexivity. Qed.

(** The product of 0.3 and a positive number below 4 is at most 1.2. *)
Lemma mul_0_3_below_4 (m : positive) (e : Z) :
  valid_binary (S754_finite false m e) = true ->
  SFltb (S754_finite false m e) (S754_finite false 4503599627370496 (-50)) = true ->
  SFleb (SF64mul (S754_finite false 5404319552844595 (-54)) (S754_finite false m e))
        (S754_finite false 5404319552844595 (-52)) = true.
Proof.
  intros Hv Hlt. apply SFltb_finite_pos in Hlt.
  apply valid_mantissa in Hv as [Hm Hn].
  change (2 ^ 53) with 9007199254740992 in Hm.
  change (2 ^ 52) with 4503599627370496 in Hn.
  assert (He : e <= -51) by lia. clear Hlt Hn.
  unfold SF64mul, SFmul. cbn [xorb].
  remember (5404319552844595 * m)%positive as P eqn:HP.
  assert (HPz : Zpos P = 5404319552844595 * Zpos m)
    by (rewrite HP; apply Pos2Z.inj_mul).
  clear HP.
  assert (Hd : 53 <= Zpos (digits2_pos P) <= 106).
  { split.
    - pose proof (digits2_pos_gt P) as Hg.
      destruct (Z.le_gt_cases 53 (Zpos (digits2_pos P))) as [|Hs]; [assumption|].
      assert (2 ^ Zpos (digits2_pos P) <= 2 ^ 52)
        by (apply Z.pow_le_mono_r; lia).
      change (2 ^ 52) with 4503599627370496 in *. lia.
    - apply digits2_pos_bound.
      change (2 ^ 106) with (9007199254740992 * 9007199254740992). nia. }
  destruct (binary_round_aux_below false P (-54 + e) 5404319552844595 (-52))
    as [Hz|(m' & e' & Hf & Hb)].
  - unfold fexp, emin, prec, emax. lia.
  - lia.
  - change (2 ^ 52) with 4503599627370496.
    change (2 ^ 53) with 9007199254740992. lia.
  - rewrite HPz. apply Z.mul_lt_mono_pos_l; [lia|].
    eapply Z.lt_le_trans; [exact Hm|].
    change 9007199254740992 with (2 ^ 53). apply Z.pow_le_mono_r; lia.
  - rewrite Hz. reflexivity.
  - rewrite Hf. apply SFleb_finite_pos. exact Hb.
Qed.

(** The velocity term of the reward never exceeds 1.2. *)
Lemma velocity_term_le (v : float) : (velocity_term v <=? 1.2)%float = true.
Proof.
  unfold velocity_term, Double.std_min.
  destruct (v <? 4)%float eqn:Hlt; [|vm_compute; reflexivity].
  rewrite leb_spec, mul_spec, Prim2SF_0_3, Prim2SF_1_2.
  rewrite ltb_spec, Prim2SF_4 in Hlt.
  pose proof (Prim2SF_valid v) as Hv.
  destruct (Prim2SF v) as [s|s| |s m e].
  - destruct s; reflexivity.
  - destruct s; [reflexivity | discriminate Hlt].
  - discriminate Hlt.
  - destruct s; [|apply mul_0_3_below_4; assumption].
    unfold SF64mul, SFmul. cbn [xorb].
    destruct (binary_round_aux_sign true (5404319552844595 * m) (-54 + e))
      as [H|[H|(m' & e' & H)]]; rewrite H; reflexivity.
Qed.

(** At or above 4, and for a velocity that is not a number, the term is
    1.2. *)
Lemma velocity_term_capped (v : float) :
  (v <? 4)%float = false -> velocity_term v = 1.2%float.
Proof.
  intros H. unfold velocity_term, Double.std_min. rewrite H.
  vm_compute. reflexivity.
Qed.

(** ** What the members hold after an operation *)

Section After.

Context `{R : Raisim}.

Lemma contact_not_foot_true (X : gset N) (contacts : list Contact) :
  contact_not_foot X contacts = true
  <-> Exists (fun contact => getlocalBodyIndex contact ∉ X) contacts.
Proof.
  induction contacts as [|c l IH]; cbn [contact_not_foot].
  - split; [discriminate | intros H; inversion H].
  - destruct (decide (getlocalBodyIndex c ∈ X)) as [Hin|Hout].
    + rewrite IH. split; [apply Exists_cons_tl|].
      intros H. inversion H; subst; [contradiction | assumption].
    + split; [intros _; apply Exists_cons_hd, Hout | reflexivity].
Qed.

Lemma contact_not_foot_false (X : gset N) (contacts : list Contact) :
  contact_not_foot X contacts = false
  <-> Forall (fun contact => getlocalBodyIndex contact ∈ X) contacts.
Proof.
  induction contacts as [|c l IH]; cbn [contact_not_foot].
  - split; [constructor | reflexivity].
  - destruct (decide (getlocalBodyIndex c ∈ X)) as [Hin|Hout].
    + rewrite IH. split; [constructor; assumption|].
      intros H. inversion H; subst; assumption.
    + split; [discriminate|]. intros H. inversion H; subst. contradiction.
Qed.

(** The joint tail of the position target is the scaled action. *)
Lemma tail_position_target action e :
  wf e -> Eigen.size action = actionDim_ e ->
  Eigen.tail (position_target action e) (nJoints_ e)
  = Some (zip_with PrimFloat.add
            (zip_with PrimFloat.mul (map Double.cast_double action) (actionStd_ e))
            (actionMean_ e)).
Proof.
  intros Hwf Ha. destruct (size_position_target action e Hwf Ha) as [Hs _].
  destruct Hwf. rewrite tail_last_n by lia. f_equal.
  unfold last_n, position_target, Eigen.size in *.
  set (t := zip_with PrimFloat.add _ _) in *.
  assert (Ht : length t = Z.to_nat (nJoints_ e))
    by (subst t; rewrite !length_zip_with, length_map; lia).
  set (l1 := take _ (pTarget_ e)).
  replace (length (l1 ++ t) - Z.to_nat (nJoints_ e))%nat with (length l1)
    by (rewrite length_app; lia).
  apply drop_app_length.
Qed.

Lemma observed_fresh (L : RaisimLaws) e : wf e -> observation_fresh (observed e).
Proof.
  intros Hwf. pose proof (wf_observed L e Hwf) as [].
  repeat split; try assumption; try lia.
  unfold observed. members. destruct (robot_getState (world_ e)). reflexivity.
Qed.

(** After [reset] the observation is the one of the initial state. *)
Lemma restarted_observation (L : RaisimLaws) e :
  wf e ->
  obDouble_ (restarted e)
  = observation_layout (Z.to_nat (nJoints_ e)) (gcInit_ e) (gvInit_ e) /\
  gc_ (restarted e) = gcInit_ e /\ gv_ (restarted e) = gvInit_ e.
Proof.
  intros Hwf. unfold restarted, observed. members.
  rewrite (getState_setState L).
  - auto.
  - destruct Hwf. unfold Eigen.size in *. lia.
  - destruct Hwf. unfold Eigen.size in *. lia.
Qed.

Lemma server_after_call (c : call) e :
  visualizable_ (after_call c e) = visualizable_ e /\
  (server_ (after_call c e) = None <-> server_ e = None).
Proof.
  destruct c; cbn [after_call];
    unfold configured, restarted, stepped, observed, advanced; members;
    (split; [reflexivity|]); try reflexivity;
    destruct (server_ e); cbn; split; congruence.
Qed.

End After.

Section Servers.

Context `{R : Raisim}.
Variables c0 s0 d0 : float.

Lemma server_built resourceDir visualizable :
  server_ (built c0 s0 d0 resourceDir visualizable) = None
  <-> visualizable = false.
Proof.
  unfold built. cbv zeta.
  generalize (uninitialized c0 s0 d0 resourceDir visualizable) (eq_refl :
    server_ (uninitialized c0 s0 d0 resourceDir visualizable) = None).
  intros e0 H0.
  assert (Hs : server_ (spaced (tuned (contained (created e0)))) = None)
    by exact H0.
  destruct visualizable.
  - split; discriminate.
  - split; [reflexivity | intros _; exact Hs].
Qed.

Lemma visualizable_built resourceDir visualizable :
  visualizable_ (built c0 s0 d0 resourceDir visualizable) = visualizable.
Proof. destruct visualizable; reflexivity. Qed.

(** An environment has a server exactly when it was built to be
    visualized. *)
Lemma reachable_server (L : RaisimLaws) e :
  reachable c0 s0 d0 e -> (server_ e = None <-> visualizable_ e = false).
Proof.
  induction 1 as [resourceDir visualizable e H | c e e' He IH H].
  - apply constructor_inv in H as (_ & _ & ->).
    rewrite visualizable_built. apply server_built.
  - apply (invoke_inv L) in H as [-> _]; [|apply (reachable_wf c0 s0 d0 L), He].
    destruct (server_after_call c e) as [-> ->]. exact IH.
Qed.

End Servers.

(** ** The small engine obeys the laws *)

Lemma length_sink (q : Eigen.VectorXd) : length (Toy.sink q) = length q.
Proof. destruct q as [|? [|? [|? ?]]]; reflexivity. Qed.

Lemma Toy_laws : @RaisimLaws Toy.raisim.
Proof.
  constructor; cbn.
  - auto.
  - intros q u w Hq Hu. unfold Toy.setState.
    destruct (decide _) as [|Hn]; [reflexivity | tauto].
  - intros q u w. unfold robot_dims, Toy.setState. cbn.
    destruct (decide _) as [[Hq Hu]|]; cbn; [rewrite Hq, Hu|]; reflexivity.
  - reflexivity.
  - reflexivity.
  - reflexivity.
  - reflexivity.
  - intros w. unfold robot_dims. cbn. rewrite length_sink. reflexivity.
Qed.

Lemma Toy_env0_new :
  WalkerEnv_new (-10) 0.005 0.02 "robot.urdf" false = (Returned tt, Toy.env0).
Proof. vm_compute. reflexivity. Qed.

Lemma Toy_env_vis_new :
  WalkerEnv_new (-10) 0.005 0.02 "robot.urdf" true = (Returned tt, Toy.env_vis).
Proof. vm_compute. reflexivity. Qed.

Lemma Toy_env0_reachable : reachable (-10) 0.005 0.02 Toy.env0.
Proof. exact (reachable_new _ _ _ _ _ _ Toy_env0_new). Qed.

Lemma Toy_env_vis_reachable : reachable (-10) 0.005 0.02 Toy.env_vis.
Proof. exact (reachable_new _ _ _ _ _ _ Toy_env_vis_new). Qed.

Lemma Toy_env_timing_reachable (control_dt simulation_dt : float) :
  reachable (-10) 0.005 0.02 (Toy.env_timing control_dt simulation_dt).
Proof.
  apply (reachable_call _ _ _ (Call_setSimulationTimeStep simulation_dt)
           (Toy.after (setControlTimeStep control_dt) Toy.env0)); [|reflexivity].
  apply (reachable_call _ _ _ (Call_setControlTimeStep control_dt) Toy.env0);
    [exact Toy_env0_reachable | reflexivity].
Qed.

(** ** The claims of the specification *)

Section Claims.

Context `{R : Raisim}.
Variables c0 s0 d0 : float.

(** C1: for every action of length [actionDim_], [step] returns, and
    afterwards the joint tail of [pTarget_] is action * actionStd_ +
    actionMean_, coefficient by coefficient, the first gcDim_ - nJoints_
    coefficients of [pTarget_] are zero, and [vTarget_] is the zero
    vector of length gvDim_; these are the targets the robot was given
    before the world was integrated. *)
Theorem step_pd_targets (L : RaisimLaws) (action : list Double.float32) (e : WalkerEnv) :
  reachable c0 s0 d0 e ->
  Eigen.size action = actionDim_ e ->
  exists r e',
    step action e = (Returned r, e') /\
    Eigen.tail (pTarget_ e') (nJoints_ e')
    = Some (zip_with PrimFloat.add
              (zip_with PrimFloat.mul (map Double.cast_double action) (actionStd_ e))
              (actionMean_ e)) /\
    take (Z.to_nat (gcDim_ e' - nJoints_ e')) (pTarget_ e')
    = replicate (Z.to_nat (gcDim_ e' - nJoints_ e')) 0%float /\
    vTarget_ e' = replicate (Z.to_nat (gvDim_ e')) 0%float /\
    world_ e'
    = integrated (Z.to_nat (loop_bound (control_dt_ e) (simulation_dt_ e)))
        (robot_setPdTarget (pTarget_ e') (vTarget_ e') (world_ e)).
Proof.
  intros Hr Ha. pose proof (reachable_wf c0 s0 d0 L e Hr) as Hwf.
  exists (reward (stepped action e)), (stepped action e).
  split; [apply (step_run L); assumption|].
  destruct (size_position_target action e Hwf Ha) as [_ Hb].
  pose proof (tail_position_target action e Hwf Ha) as Ht.
  pose proof (wf_vTarget e Hwf) as Hv.
  unfold stepped, observed, advanced. members. auto.
Qed.

(** C2: [updateObservation] returns on every environment a host can
    hold, and so do [reset] and [step] on an action of the right length;
    each leaves an observation of length obDim_ = 1 + 3 + 3 + 3 +
    2 * nJoints_ laid out as the base height gc[2], the third row of the
    rotation matrix of the quaternion gc[3..6], the joint angles, the
    base linear and angular velocities multiplied by the transpose of
    that matrix, and the joint velocities, where gc and gv are the state
    the engine is in. *)
Theorem observation_after_update (L : RaisimLaws) (e : WalkerEnv) :
  reachable c0 s0 d0 e ->
  (exists e', updateObservation e = (Returned tt, e') /\ observation_fresh e') /\
  (exists e', reset e = (Returned tt, e') /\ observation_fresh e') /\
  (forall action, Eigen.size action = actionDim_ e ->
     exists r e', step action e = (Returned r, e') /\ observation_fresh e').
Proof.
  intros Hr. pose proof (reachable_wf c0 s0 d0 L e Hr) as Hwf.
  split; [|split].
  - exists (observed e). split; [apply (updateObservation_wf L), Hwf|].
    apply (observed_fresh L), Hwf.
  - exists (restarted e). split; [apply (reset_run L), Hwf|].
    apply (observed_fresh L), wf_set_world; [exact Hwf | apply (dims_setState L)].
  - intros action Ha.
    exists (reward (stepped action e)), (stepped action e).
    split; [apply (step_run L); assumption|].
    apply (observed_fresh L), (wf_advanced L); assumption.
Qed.

(** C3: [step] returns, narrowed to binary32, the sum of -4e-5 times
    the squared norm of the generalized force the robot reports and 0.3
    times the smaller of 4.0 and the first coefficient of the base
    linear velocity in the base frame.  The robot is the one of the
    world after the sub-steps, made from the world before by the new PD
    targets and the integrations, and the base linear velocity is the
    product of the transposed rotation matrix of the quaternion gc[3..6]
    with gv[0..2], where gc and gv are the state this world reports.
    The second term never exceeds 1.2, and it is the same at velocity 10
    as at velocity 4. *)
Theorem step_reward (L : RaisimLaws) (action : list Double.float32) (e : WalkerEnv) :
  reachable c0 s0 d0 e ->
  Eigen.size action = actionDim_ e ->
  (exists e',
     step action e
     = (Returned
          (Double.to_float
             (-4e-5 * Eigen.squaredNorm (robot_getGeneralizedForce (world_ e'))
              + 0.3 * Double.std_min 4.0 (fst (fst (bodyLinearVel_ e'))))%float),
        e') /\
     world_ e'
     = integrated (Z.to_nat (loop_bound (control_dt_ e) (simulation_dt_ e)))
         (robot_setPdTarget (position_target action e) (vTarget_ e) (world_ e)) /\
     (let gc := fst (robot_getState (world_ e')) in
      let gv := snd (robot_getState (world_ e')) in
      bodyLinearVel_ e'
      = Eigen.mul_vec
          (Eigen.transpose
             (raisim_quatToRotMat (at_ gc 3, at_ gc 4, at_ gc 5, at_ gc 6)))
          (at_ gv 0, at_ gv 1, at_ gv 2))) /\
  (forall v : float, (velocity_term v <=? 1.2)%float = true) /\
  velocity_term 10 = velocity_term 4.
Proof.
  intros Hr Ha. pose proof (reachable_wf c0 s0 d0 L e Hr) as Hwf.
  split; [|split].
  - exists (stepped action e).
    split; [apply (step_run L); assumption|].
    split; reflexivity.
  - exact velocity_term_le.
  - rewrite !velocity_term_capped by (vm_compute; reflexivity). reflexivity.
Qed.

(** C4: [isTerminalState] returns true with the terminal reward
    coefficient, narrowed to binary32, when some contact of the robot is
    on a body outside [footIndices_], and false with 0 when every
    contact is on a body of [footIndices_], also when there is no
    contact; either way the members stay as they were. *)
Theorem isTerminalState_contacts (e : WalkerEnv) :
  (Exists (fun contact => getlocalBodyIndex contact ∉ footIndices_ e)
     (robot_getContacts (world_ e)) ->
   isTerminalState e
   = (Returned (true, Double.to_float (terminalRewardCoeff_ e)), e)) /\
  (Forall (fun contact => getlocalBodyIndex contact ∈ footIndices_ e)
     (robot_getContacts (world_ e)) ->
   isTerminalState e = (Returned (false, 0%float), e)).
Proof.
  rewrite isTerminalState_run. split.
  - intros H. apply contact_not_foot_true in H. rewrite H. reflexivity.
  - intros H. apply contact_not_foot_false in H. rewrite H. reflexivity.
Qed.


(** C6, as amended: the bound of the loop of [step] is the guarded ratio
    control_dt_ / simulation_dt_ + 1e-10 cut off toward zero, not the
    ratio rounded to the nearest integer: where its floor is a number
    [k] from 0 to the largest [int], the bound is [k] and [step]
    integrates the world [k] times. *)
Theorem step_substeps_truncate (L : RaisimLaws) (action : list Double.float32)
    (e : WalkerEnv) (k : Z) :
  reachable c0 s0 d0 e ->
  Eigen.size action = actionDim_ e ->
  Double.floor (control_dt_ e / simulation_dt_ e + 1e-10) = Some k ->
  0 <= k <= Double.INT_MAX ->
  loop_bound (control_dt_ e) (simulation_dt_ e) = k /\
  exists r e',
    step action e = (Returned r, e') /\
    world_ e'
    = Nat.iter (Z.to_nat k) world_integrate
        (robot_setPdTarget (pTarget_ e') (vTarget_ e') (world_ e)).
Proof.
  intros Hr Ha Hk Hrange. pose proof (reachable_wf c0 s0 d0 L e Hr) as Hwf.
  pose proof (to_int_floor_nonneg _ k Hk Hrange) as Hb.
  split; [exact Hb|].
  exists (reward (stepped action e)), (stepped action e).
  split; [apply (step_run L); assumption|].
  unfold stepped, observed, advanced, loop_bound. members. rewrite Hb. reflexivity.
Qed.

(** C7: when one of the six arguments of [setInitConstants] has not the
    length of its dimension, the call aborts on a failed assertion and
    the members, the world with its PD gains among them, are as they
    were before the call. *)
Theorem setInitConstants_mismatch
    (gcInit gvInit actionMean actionStd pGain dGain : Eigen.VectorXd)
    (e : WalkerEnv) :
  Eigen.size gcInit <> gcDim_ e \/ Eigen.size gvInit <> gvDim_ e \/
  Eigen.size actionMean <> actionDim_ e \/ Eigen.size actionStd <> actionDim_ e \/
  Eigen.size pGain <> gvDim_ e \/ Eigen.size dGain <> gvDim_ e ->
  exists expr,
    setInitConstants gcInit gvInit actionMean actionStd pGain dGain e
    = (Aborted (AssertionFailed expr), e).
Proof. apply setInitConstants_abort. Qed.

(** C8: two calls of [reset] in a row both return and leave the same
    observation, and [init] is the same computation as [reset]. *)
Theorem reset_twice (L : RaisimLaws) (e : WalkerEnv) :
  reachable c0 s0 d0 e ->
  (exists e1 e2,
     reset e = (Returned tt, e1) /\ reset e1 = (Returned tt, e2) /\
     obDouble_ e2 = obDouble_ e1) /\
  init = reset.
Proof.
  intros Hr. pose proof (reachable_wf c0 s0 d0 L e Hr) as Hwf.
  pose proof (wf_restarted L e Hwf) as Hwf1.
  split; [|reflexivity].
  exists (restarted e), (restarted (restarted e)).
  split; [apply (reset_run L), Hwf|].
  split; [apply (reset_run L), Hwf1|].
  destruct (restarted_observation L e Hwf) as (-> & _ & _).
  destruct (restarted_observation L _ Hwf1) as (-> & _ & _).
  reflexivity.
Qed.

(** C9 fails in the code: on an environment built without visualization
    each of the four visualization calls dereferences the null
    [server_]. *)
Theorem visualization_without_server (L : RaisimLaws) (e : WalkerEnv)
    (videoName : string) :
  reachable c0 s0 d0 e ->
  visualizable_ e = false ->
  startRecordingVideo videoName e = (Aborted (NullDereference "server_"), e) /\
  stopRecordingVideo e = (Aborted (NullDereference "server_"), e) /\
  turnOnVisualization e = (Aborted (NullDereference "server_"), e) /\
  turnOffVisualization e = (Aborted (NullDereference "server_"), e).
Proof.
  intros Hr Hv. apply (reachable_server c0 s0 d0 L e Hr) in Hv.
  repeat split; apply call_server_none, Hv.
Qed.

(** C10: when control_dt_ / simulation_dt_ + 1e-10 is below 1, [step]
    on an action of the right length returns a reward without
    integrating the world: the robot has got the PD targets, the
    observation is the one of the state the engine was in, and a server
    is not touched.  [setControlTimeStep] stores any number. *)
Theorem step_without_substeps (L : RaisimLaws) (action : list Double.float32)
    (e : WalkerEnv) :
  reachable c0 s0 d0 e ->
  Eigen.size action = actionDim_ e ->
  (control_dt_ e / simulation_dt_ e + 1e-10 <? 1)%float = true ->
  (exists r e',
     step action e = (Returned r, e') /\
     world_ e' = robot_setPdTarget (pTarget_ e') (vTarget_ e') (world_ e) /\
     pTarget_ e' = position_target action e /\
     observation_fresh e' /\
     server_ e' = server_ e) /\
  (forall dt : float, setControlTimeStep dt e = (Returned tt, set_control_dt_ dt e)).
Proof.
  intros Hr Ha Hlt. pose proof (reachable_wf c0 s0 d0 L e Hr) as Hwf.
  split; [|reflexivity].
  exists (reward (stepped action e)), (stepped action e).
  split; [apply (step_run L); assumption|].
  split; [|split; [|split]].
  - unfold stepped, observed, advanced, loop_bound. members.
    rewrite (to_int_lt_one _ Hlt). reflexivity.
  - reflexivity.
  - apply (observed_fresh L), (wf_advanced L); assumption.
  - unfold stepped, observed, advanced, loop_bound. members.
    rewrite (to_int_lt_one _ Hlt). destruct (server_ e); reflexivity.
Qed.

End Claims.

(** ** The claims on the small engine *)

Lemma step_pd_targets_witness :
  exists r e',
    step Toy.action0 Toy.env0 = (Returned r, e') /\
    Eigen.tail (pTarget_ e') (nJoints_ e')
    = Some (zip_with PrimFloat.add
              (zip_with PrimFloat.mul (map Double.cast_double Toy.action0)
                 (actionStd_ Toy.env0))
              (actionMean_ Toy.env0)) /\
    take (Z.to_nat (gcDim_ e' - nJoints_ e')) (pTarget_ e')
    = replicate (Z.to_nat (gcDim_ e' - nJoints_ e')) 0%float /\
    vTarget_ e' = replicate (Z.to_nat (gvDim_ e')) 0%float /\
    world_ e'
    = integrated
        (Z.to_nat (loop_bound (control_dt_ Toy.env0) (simulation_dt_ Toy.env0)))
        (robot_setPdTarget (pTarget_ e') (vTarget_ e') (world_ Toy.env0)).
Proof.
  apply (step_pd_targets (-10) 0.005 0.02 Toy_laws Toy.action0 Toy.env0).
  - exact Toy_env0_reachable.
  - reflexivity.
Defined.

Lemma observation_after_update_witness :
  (exists e', updateObservation Toy.env0 = (Returned tt, e') /\ observation_fresh e') /\
  (exists e', reset Toy.env0 = (Returned tt, e') /\ observation_fresh e') /\
  (forall action, Eigen.size action = actionDim_ Toy.env0 ->
     exists r e', step action Toy.env0 = (Returned r, e') /\ observation_fresh e').
Proof.
  apply (observation_after_update (-10) 0.005 0.02 Toy_laws Toy.env0).
  exact Toy_env0_reachable.
Defined.

Lemma step_reward_witness :
  (exists e',
     step Toy.action0 Toy.env0
     = (Returned
          (Double.to_float
             (-4e-5 * Eigen.squaredNorm (robot_getGeneralizedForce (world_ e'))
              + 0.3 * Double.std_min 4.0 (fst (fst (bodyLinearVel_ e'))))%float),
        e') /\
     world_ e'
     = integrated
         (Z.to_nat (loop_bound (control_dt_ Toy.env0) (simulation_dt_ Toy.env0)))
         (robot_setPdTarget (position_target Toy.action0 Toy.env0)
            (vTarget_ Toy.env0) (world_ Toy.env0)) /\
     (let gc := fst (robot_getState (world_ e')) in
      let gv := snd (robot_getState (world_ e')) in
      bodyLinearVel_ e'
      = Eigen.mul_vec
          (Eigen.transpose
             (raisim_quatToRotMat (at_ gc 3, at_ gc 4, at_ gc 5, at_ gc 6)))
          (at_ gv 0, at_ gv 1, at_ gv 2))) /\
  (forall v : float, (velocity_term v <=? 1.2)%float = true) /\
  velocity_term 10 = velocity_term 4.
Proof.
  apply (step_reward (-10) 0.005 0.02 Toy_laws Toy.action0 Toy.env0).
  - exact Toy_env0_reachable.
  - reflexivity.
Defined.



Lemma step_substeps_truncate_witness :
  loop_bound (control_dt_ (Toy.env_timing 0.875 0.5))
    (simulation_dt_ (Toy.env_timing 0.875 0.5)) = 1 /\
  exists r e',
    step Toy.action0 (Toy.env_timing 0.875 0.5) = (Returned r, e') /\
    world_ e'
    = Nat.iter (Z.to_nat 1) world_integrate
        (robot_setPdTarget (pTarget_ e') (vTarget_ e')
           (world_ (Toy.env_timing 0.875 0.5))).
Proof.
  apply (step_substeps_truncate (-10) 0.005 0.02 Toy_laws Toy.action0
           (Toy.env_timing 0.875 0.5) 1).
  - exact (Toy_env_timing_reachable 0.875 0.5).
  - reflexivity.
  - vm_compute. reflexivity.
  - unfold Double.INT_MAX. lia.
Defined.

(** With control step 0.875 and simulation step 0.5 the ratio 1.75
    rounds to 2, and [step] makes one sub-step. *)
Lemma step_substeps_not_round :
  (0.5 <=? 0.875)%float = true /\
  Double.round (0.875 / 0.5) = Some 2 /\
  (control_dt_ (Toy.env_timing 0.875 0.5), simulation_dt_ (Toy.env_timing 0.875 0.5))
  = (0.875, 0.5)%float /\
  Toy.ticks (world_ (Toy.after (step Toy.action0) (Toy.env_timing 0.875 0.5)))
  = S (Toy.ticks (world_ (Toy.env_timing 0.875 0.5))).
Proof. vm_compute. repeat split. Qed.

Lemma setInitConstants_mismatch_witness :
  exists expr,
    setInitConstants [1%float] (gvInit_ Toy.env0) (actionMean_ Toy.env0)
      (actionStd_ Toy.env0) (gvInit_ Toy.env0) (gvInit_ Toy.env0) Toy.env0
    = (Aborted (AssertionFailed expr), Toy.env0).
Proof.
  apply setInitConstants_mismatch.
  left. vm_compute. discriminate.
Defined.

Lemma reset_twice_witness :
  (exists e1 e2,
     reset Toy.env0 = (Returned tt, e1) /\ reset e1 = (Returned tt, e2) /\
     obDouble_ e2 = obDouble_ e1) /\
  @init Toy.raisim = reset.
Proof.
  apply (reset_twice (-10) 0.005 0.02 Toy_laws Toy.env0).
  exact Toy_env0_reachable.
Defined.

Lemma visualization_without_server_witness :
  startRecordingVideo "run.mp4" Toy.env0
  = (Aborted (NullDereference "server_"), Toy.env0) /\
  stopRecordingVideo Toy.env0 = (Aborted (NullDereference "server_"), Toy.env0) /\
  turnOnVisualization Toy.env0 = (Aborted (NullDereference "server_"), Toy.env0) /\
  turnOffVisualization Toy.env0 = (Aborted (NullDereference "server_"), Toy.env0).
Proof.
  apply (visualization_without_server (-10) 0.005 0.02 Toy_laws Toy.env0 "run.mp4").
  - exact Toy_env0_reachable.
  - reflexivity.
Defined.

Lemma step_without_substeps_witness :
  (exists r e',
     step Toy.action0 (Toy.env_timing 0.005 0.02) = (Returned r, e') /\
     world_ e'
     = robot_setPdTarget (pTarget_ e') (vTarget_ e')
         (world_ (Toy.env_timing 0.005 0.02)) /\
     pTarget_ e' = position_target Toy.action0 (Toy.env_timing 0.005 0.02) /\
     observation_fresh e' /\
     server_ e' = server_ (Toy.env_timing 0.005 0.02)) /\
  (forall dt : float,
     setControlTimeStep dt (Toy.env_timing 0.005 0.02)
     = (Returned tt, set_control_dt_ dt (Toy.env_timing 0.005 0.02))).
Proof.
  apply (step_without_substeps (-10) 0.005 0.02 Toy_laws Toy.action0
           (Toy.env_timing 0.005 0.02)).
  - exact (Toy_env_timing_reachable 0.005 0.02).
  - reflexivity.
  - vm_compute. reflexivity.
Defined.

(** ** More of what the code does *)

Section Frames.

Context `{R : Raisim}.

Lemma fixed_after_call (c : call) e : fixed (after_call c e) = fixed e.
Proof. destruct c; reflexivity. Qed.

Lemma footIndices_spaced e :
  footIndices_ (spaced e) = feet (world_ e) ∪ footIndices_ e.
Proof. reflexivity. Qed.

Lemma footIndices_staged e :
  footIndices_ (tuned (contained (created e))) = footIndices_ e.
Proof. reflexivity. Qed.

Lemma world_spaced e : world_ (spaced e) = world_ e.
Proof. reflexivity. Qed.

Lemma world_staged e :
  world_ (tuned (contained (created e)))
  = robot_setGeneralizedForce
      (replicate (Z.to_nat (Z.of_nat (robot_getDOF (loaded (resourceDir_ e))))) 0%float)
      (robot_setPdGains
         (joint_gain (Z.of_nat (robot_getDOF (loaded (resourceDir_ e))))
            (Z.of_nat (robot_getDOF (loaded (resourceDir_ e))) - 6) 50)
         (joint_gain (Z.of_nat (robot_getDOF (loaded (resourceDir_ e))))
            (Z.of_nat (robot_getDOF (loaded (resourceDir_ e))) - 6) 0.2)
         (loaded (resourceDir_ e))).
Proof. reflexivity. Qed.

Lemma feet_staged e :
  footIndices_ e = ∅ ->
  footIndices_ (spaced (tuned (contained (created e))))
  = feet (world_ (spaced (tuned (contained (created e))))).
Proof.
  intros He.
  rewrite footIndices_spaced, footIndices_staged, world_spaced, He.
  apply (right_id_L ∅ (∪)).
Qed.

Lemma constructed_staged (c0 s0 d0 : float) (resourceDir : string) e0 :
  resourceDir_ e0 = resourceDir ->
  footIndices_ e0 = ∅ ->
  (terminalRewardCoeff_ e0, simulation_dt_ e0, control_dt_ e0) = (c0, s0, d0) ->
  robot_getGeneralizedCoordinateDim (loaded resourceDir) = 19%nat ->
  constructed c0 s0 d0 resourceDir (spaced (tuned (contained (created e0)))).
Proof.
  intros Hr Hf Ht Hc. unfold constructed. cbv zeta.
  rewrite (feet_staged e0 Hf).
  unfold spaced, tuned, contained, created. members. rewrite Hr, Hc.
  repeat split; try reflexivity; try assumption. lia.
Qed.

Lemma constructed_visualized (c0 s0 d0 : float) (resourceDir : string) e :
  constructed c0 s0 d0 resourceDir e ->
  constructed c0 s0 d0 resourceDir (visualized e).
Proof. intros H. exact H. Qed.

Lemma dims_built (c0 s0 d0 : float) (resourceDir : string) (visualizable : bool) :
  gvDim_ (built c0 s0 d0 resourceDir visualizable)
  = Z.of_nat (robot_getDOF (loaded resourceDir)) /\
  nJoints_ (built c0 s0 d0 resourceDir visualizable)
  = Z.of_nat (robot_getDOF (loaded resourceDir)) - 6.
Proof. destruct visualizable; split; reflexivity. Qed.

Lemma world_visualized e : world_ (visualized e) = world_ e.
Proof. reflexivity. Qed.

Lemma world_built (c0 s0 d0 : float) (resourceDir : string) (visualizable : bool) :
  world_ (built c0 s0 d0 resourceDir visualizable)
  = world_ (tuned (contained (created
              (uninitialized c0 s0 d0 resourceDir visualizable)))).
Proof.
  unfold built. cbv zeta.
  destruct visualizable; [rewrite world_visualized|]; apply world_spaced.
Qed.

End Frames.

Section Extras.

Context `{R : Raisim}.
Variables c0 s0 d0 : float.

(** X1: the constructor returns only on a robot of 19 generalized
    coordinates, the number of values written into [gcInit_], and of 6
    to 25 degrees of freedom, so that the joints are a tail of both
    state vectors and of the standing pose; on a robot of other
    dimensions it does not return.  This is a necessary condition only:
    the engine may also refuse the descriptor or a foot body, which
    [Raisim] does not model. *)
Theorem constructor_returns_only (resourceDir : string) (visualizable : bool) :
  (forall e,
     WalkerEnv_new c0 s0 d0 resourceDir visualizable = (Returned tt, e) ->
     robot_getGeneralizedCoordinateDim (loaded resourceDir) = 19%nat /\
     (6 <= robot_getDOF (loaded resourceDir) <= 25)%nat) /\
  (~ (robot_getGeneralizedCoordinateDim (loaded resourceDir) = 19%nat /\
      (6 <= robot_getDOF (loaded resourceDir) <= 25)%nat) ->
   exists f e, WalkerEnv_new c0 s0 d0 resourceDir visualizable = (Aborted f, e)).
Proof.
  split.
  - intros e H. apply constructor_inv in H as (Hc & Hv & _). auto.
  - intros Hn.
    destruct (WalkerEnv_new c0 s0 d0 resourceDir visualizable) as [[[]|f] e] eqn:H.
    + apply constructor_inv in H as (Hc & Hv & _). tauto.
    + eauto.
Qed.

(** X2: the environment the constructor returns has the dimensions of
    the robot, an observation of 2 * gvDim_ - 2 coefficients and an
    action of gvDim_ - 6, the standing pose as initial coordinates with
    its joint part as action mean, the action scale 0.3 on every joint,
    zero vectors elsewhere (the observation buffer among them: no
    observation is computed yet), the four shanks as feet, and the time
    steps and the terminal reward coefficient of the header. *)
Theorem constructor_members (resourceDir : string) (visualizable : bool)
    (e : WalkerEnv) :
  WalkerEnv_new c0 s0 d0 resourceDir visualizable = (Returned tt, e) ->
  constructed c0 s0 d0 resourceDir e.
Proof.
  intros H. apply constructor_inv in H as (Hc & Hv & ->).
  unfold built. cbv zeta.
  destruct visualizable; [apply constructed_visualized|];
    apply constructed_staged; (reflexivity || exact Hc).
Qed.

(** X3: the constructor gives the robot a proportional gain of 50 and
    a derivative gain of 0.2 on every joint and none on the six degrees
    of freedom of the base, then a zero generalized force; nothing else
    reaches the world before the first call. *)
Theorem constructor_gains (resourceDir : string) (visualizable : bool)
    (e : WalkerEnv) :
  WalkerEnv_new c0 s0 d0 resourceDir visualizable = (Returned tt, e) ->
  world_ e
  = robot_setGeneralizedForce (replicate (Z.to_nat (gvDim_ e)) 0%float)
      (robot_setPdGains
         (replicate 6 0%float ++ replicate (Z.to_nat (nJoints_ e)) 50%float)
         (replicate 6 0%float ++ replicate (Z.to_nat (nJoints_ e)) 0.2%float)
         (loaded resourceDir)).
Proof.
  intros H. apply constructor_inv in H as (Hc & Hv & ->).
  destruct (dims_built c0 s0 d0 resourceDir visualizable) as [-> ->].
  rewrite world_built, world_staged.
  change (resourceDir_ (uninitialized c0 s0 d0 resourceDir visualizable))
    with resourceDir.
  unfold joint_gain.
  replace (Z.to_nat (Z.of_nat (robot_getDOF (loaded resourceDir))
                     - (Z.of_nat (robot_getDOF (loaded resourceDir)) - 6)))
    with 6%nat by lia.
  reflexivity.
Qed.

End Extras.

Section Lifelong.

Context `{R : Raisim}.
Variables c0 s0 d0 : float.

Lemma fixed_built_same (resourceDir : string) (visualizable : bool) :
  resourceDir_ (built c0 s0 d0 resourceDir visualizable) = resourceDir /\
  visualizable_ (built c0 s0 d0 resourceDir visualizable) = visualizable.
Proof. destruct visualizable; split; reflexivity. Qed.

(** X4: an environment a host can hold has a visualization server
    exactly when it was built with visualization: no call attaches or
    detaches one. *)
Theorem server_iff_visualizable (L : RaisimLaws) (e : WalkerEnv) :
  reachable c0 s0 d0 e ->
  (server_ e = None <-> visualizable_ e = false).
Proof. apply (reachable_server c0 s0 d0 L). Qed.

(** X5: the invariant of the members.  In every environment a host can
    hold the dimension members are those of the robot in the world, the
    robot has at least 7 generalized coordinates and its joints are a
    tail of them, the initial state, the action mean and scale, the
    observation buffer and the position target have the sizes of their
    dimensions, the base part of the position target is zero and the
    velocity target is the zero vector. *)
Theorem reachable_invariant (L : RaisimLaws) (e : WalkerEnv) :
  reachable c0 s0 d0 e -> wf e.
Proof. apply (reachable_wf c0 s0 d0 L). Qed.

(** X6: the resource directory, the visualization flag, the five
    dimension members, the feet and the terminal reward coefficient are
    assigned by the constructor only: the first two are its arguments,
    and a call that returns leaves all of them as they were.  [getObDim]
    and [getActionDim] return 2 * gvDim_ - 2 and gvDim_ - 6 without
    touching a member. *)
Theorem fixed_for_life (L : RaisimLaws) (c : call) (e e' : WalkerEnv) :
  reachable c0 s0 d0 e ->
  invoke c e = (Returned tt, e') ->
  fixed e' = fixed e /\
  getObDim e' = (Returned (2 * gvDim_ e - 2), e') /\
  getActionDim e' = (Returned (gvDim_ e - 6), e') /\
  (forall resourceDir visualizable e0,
     WalkerEnv_new c0 s0 d0 resourceDir visualizable = (Returned tt, e0) ->
     (resourceDir_ e0, visualizable_ e0) = (resourceDir, visualizable)).
Proof.
  intros Hr H. pose proof (reachable_wf c0 s0 d0 L e Hr) as Hwf.
  apply (invoke_inv L) in H as [-> Hwf']; [|exact Hwf].
  pose proof (fixed_after_call c e) as Hf.
  split; [exact Hf|].
  unfold fixed in Hf. injection Hf as _ _ _ Hv Hn Ho Ha _ _.
  destruct Hwf. unfold getObDim, getActionDim, gets.
  split; [|split].
  - do 2 f_equal. lia.
  - do 2 f_equal. lia.
  - intros resourceDir visualizable e0 H0.
    apply constructor_inv in H0 as (_ & _ & ->).
    destruct (fixed_built_same resourceDir visualizable) as [-> ->].
    reflexivity.
Qed.

End Lifelong.

Section Operations.

Context `{R : Raisim}.
Variables c0 s0 d0 : float.

(** X7: [setInitConstants] returns exactly when each of its six
    arguments has the length of its dimension; it then stores the four
    vectors, hands the two gains to the robot and leaves every other
    member as it was: the current state, the targets and the
    observation buffer do not follow the new initial state until
    [reset]. *)
Theorem setInitConstants_returns
    (gcInit gvInit actionMean actionStd pGain dGain : Eigen.VectorXd)
    (e : WalkerEnv) :
  ((exists e',
      setInitConstants gcInit gvInit actionMean actionStd pGain dGain e
      = (Returned tt, e'))
   <-> Eigen.size gcInit = gcDim_ e /\ Eigen.size gvInit = gvDim_ e /\
       Eigen.size actionMean = actionDim_ e /\ Eigen.size actionStd = actionDim_ e /\
       Eigen.size pGain = gvDim_ e /\ Eigen.size dGain = gvDim_ e) /\
  (forall e',
     setInitConstants gcInit gvInit actionMean actionStd pGain dGain e
     = (Returned tt, e') ->
     (gcInit_ e', gvInit_ e', actionMean_ e', actionStd_ e')
     = (gcInit, gvInit, actionMean, actionStd) /\
     world_ e' = robot_setPdGains pGain dGain (world_ e) /\
     (gc_ e', gv_ e', pTarget_ e', vTarget_ e', obDouble_ e')
     = (gc_ e, gv_ e, pTarget_ e, vTarget_ e, obDouble_ e) /\
     (server_ e', simulation_dt_ e', control_dt_ e')
     = (server_ e, simulation_dt_ e, control_dt_ e) /\
     fixed e' = fixed e).
Proof.
  split; [split|].
  - intros [e' H]. apply setInitConstants_inv in H as [H _]. exact H.
  - intros (? & ? & ? & ? & ? & ?). eexists.
    apply setInitConstants_run; assumption.
  - intros e' H. apply setInitConstants_inv in H as [_ ->].
    repeat split.
Qed.

(** X8: on an environment a host can hold [step] returns exactly when
    the action has [actionDim_] coefficients; on any other action it
    aborts at its first Eigen operation, before a member is assigned or
    the robot is given a target. *)
Theorem step_wrong_size (L : RaisimLaws) (action : list Double.float32)
    (e : WalkerEnv) :
  reachable c0 s0 d0 e ->
  ((exists r e', step action e = (Returned r, e'))
   <-> Eigen.size action = actionDim_ e) /\
  (Eigen.size action <> actionDim_ e ->
   step action e = (Aborted (AssertionFailed "eigen_assert"), e)).
Proof.
  intros Hr. pose proof (reachable_wf c0 s0 d0 L e Hr) as Hwf.
  split; [split|].
  - intros (r & e' & H). apply (step_inv L) in H as [Ha _]; assumption.
  - intros Ha. do 2 eexists. apply (step_run L); assumption.
  - intros Ha. unfold step. forth.
    apply bind_eigen_none. unfold Eigen.cwiseProduct.
    destruct (Z.eqb_spec (Eigen.size (map Double.cast_double action))
                (Eigen.size (actionStd_ e))) as [Heq|Hne]; [|reflexivity].
    destruct Hwf. unfold Eigen.size in *. rewrite length_map in Heq. lia.
Qed.


(** X10: [observe] returns exactly when the buffer of the caller has
    [obDim_] coefficients; it then fills it with the observation
    narrowed to binary32.  On a buffer of another length it aborts on
    Eigen's assertion.  Either way no member is touched. *)
Theorem observe_returns (L : RaisimLaws) (ob : list Double.float32)
    (e : WalkerEnv) :
  reachable c0 s0 d0 e ->
  (Eigen.size ob = obDim_ e ->
   observe ob e = (Returned (map Double.to_float (obDouble_ e)), e) /\
   Eigen.size (map Double.to_float (obDouble_ e)) = obDim_ e) /\
  (Eigen.size ob <> obDim_ e ->
   observe ob e = (Aborted (AssertionFailed "eigen_assert"), e)) /\
  (forall r e', observe ob e = (Returned r, e') ->
                Eigen.size ob = obDim_ e /\ e' = e).
Proof.
  intros Hr. pose proof (reachable_wf c0 s0 d0 L e Hr) as Hwf.
  pose proof (wf_obDouble e Hwf) as Ho.
  split; [|split].
  - intros Hs. split; [apply observe_run; congruence|].
    unfold Eigen.size in *. rewrite length_map. exact Ho.
  - intros Hs. apply observe_abort. congruence.
  - intros r e' H. apply observe_inv in H as (Hs & _ & ->).
    split; [congruence | reflexivity].
Qed.

(** X11: the two setters of the time steps store any number, the
    simulation step also in the world, and the next [step] takes its
    number of integrations from them; the getters return what was
    set. *)
Theorem time_steps_then_step (L : RaisimLaws) (control_dt simulation_dt : float)
    (action : list Double.float32) (e : WalkerEnv) :
  reachable c0 s0 d0 e ->
  Eigen.size action = actionDim_ e ->
  exists r e',
    (setControlTimeStep control_dt;; setSimulationTimeStep simulation_dt;;
     step action) e = (Returned r, e') /\
    getControlTimeStep e' = (Returned control_dt, e') /\
    getSimulationTimeStep e' = (Returned simulation_dt, e') /\
    world_ e'
    = Nat.iter (Z.to_nat (loop_bound control_dt simulation_dt)) world_integrate
        (robot_setPdTarget (pTarget_ e') (vTarget_ e')
           (world_setTimeStep simulation_dt (world_ e))).
Proof.
  intros Hr Ha. pose proof (reachable_wf c0 s0 d0 L e Hr) as Hwf.
  set (e1 := set_control_dt_ control_dt e).
  set (e2 := set_world_ (world_setTimeStep simulation_dt (world_ e1))
               (set_simulation_dt_ simulation_dt e1)).
  assert (Hwf2 : wf e2).
  { apply wf_set_world; [|apply (dims_setTimeStep L)].
    apply wf_set_simulation_dt, wf_set_control_dt, Hwf. }
  assert (Ha2 : Eigen.size action = actionDim_ e2) by exact Ha.
  exists (reward (stepped action e2)), (stepped action e2).
  split; [|repeat split].
  rewrite (bind_returned _ _ _ _ _ (setControlTimeStep_run control_dt e)).
  rewrite (bind_returned _ _ _ _ _ (setSimulationTimeStep_run simulation_dt _)).
  apply (step_run L); assumption.
Qed.

(** X12: on an environment built with visualization the four
    visualization calls return and change nothing but the server, which
    gets the call. *)
Theorem visualization_with_server (L : RaisimLaws) (e : WalkerEnv)
    (videoName : string) :
  reachable c0 s0 d0 e ->
  visualizable_ e = true ->
  exists srv,
    server_ e = Some srv /\
    turnOffVisualization e
    = (Returned tt, set_server_ (Some (server_hibernate srv)) e) /\
    turnOnVisualization e
    = (Returned tt, set_server_ (Some (server_wakeup srv)) e) /\
    startRecordingVideo videoName e
    = (Returned tt, set_server_ (Some (server_startRecordingVideo videoName srv)) e) /\
    stopRecordingVideo e
    = (Returned tt, set_server_ (Some (server_stopRecordingVideo srv)) e).
Proof.
  intros Hr Hv. pose proof (reachable_server c0 s0 d0 L e Hr) as Hs.
  destruct (server_ e) as [srv|] eqn:Hsrv.
  - exists srv. split; [reflexivity|].
    repeat split; apply call_server_some, Hsrv.
  - rewrite Hv in Hs. destruct Hs as [Hs _]. discriminate (Hs eq_refl).
Qed.

(** X13: [reset] puts the robot into the initial state and nothing
    else into the world: afterwards [gc_] and [gv_] are the initial
    state and the observation is the one of the initial state, whatever
    the world was before, while the PD targets of the last [step] stay
    in the members and in the robot. *)
Theorem reset_restores (L : RaisimLaws) (e : WalkerEnv) :
  reachable c0 s0 d0 e ->
  exists e',
    reset e = (Returned tt, e') /\
    world_ e' = robot_setState (gcInit_ e) (gvInit_ e) (world_ e) /\
    (gc_ e', gv_ e') = (gcInit_ e, gvInit_ e) /\
    obDouble_ e'
    = observation_layout (Z.to_nat (nJoints_ e)) (gcInit_ e) (gvInit_ e) /\
    (pTarget_ e', vTarget_ e') = (pTarget_ e, vTarget_ e) /\
    (gcInit_ e', gvInit_ e', actionMean_ e', actionStd_ e')
    = (gcInit_ e, gvInit_ e, actionMean_ e, actionStd_ e).
Proof.
  intros Hr. pose proof (reachable_wf c0 s0 d0 L e Hr) as Hwf.
  exists (restarted e). split; [apply (reset_run L), Hwf|].
  destruct (restarted_observation L e Hwf) as (Ho & Hc & Hv).
  rewrite Ho, Hc, Hv. repeat split.
Qed.

(** X14: a new initial state takes effect at the next [reset]: after
    [setInitConstants] with arguments of the right lengths and [reset],
    the state and the observation are those of the new initial state. *)
Theorem setInitConstants_then_reset (L : RaisimLaws)
    (gcInit gvInit actionMean actionStd pGain dGain : Eigen.VectorXd)
    (e : WalkerEnv) :
  reachable c0 s0 d0 e ->
  Eigen.size gcInit = gcDim_ e -> Eigen.size gvInit = gvDim_ e ->
  Eigen.size actionMean = actionDim_ e -> Eigen.size actionStd = actionDim_ e ->
  Eigen.size pGain = gvDim_ e -> Eigen.size dGain = gvDim_ e ->
  exists e',
    (setInitConstants gcInit gvInit actionMean actionStd pGain dGain;; reset) e
    = (Returned tt, e') /\
    (gc_ e', gv_ e') = (gcInit, gvInit) /\
    obDouble_ e' = observation_layout (Z.to_nat (nJoints_ e)) gcInit gvInit /\
    (actionMean_ e', actionStd_ e') = (actionMean, actionStd).
Proof.
  intros Hr H1 H2 H3 H4 H5 H6.
  pose proof (reachable_wf c0 s0 d0 L e Hr) as Hwf.
  pose proof (wf_configured L gcInit gvInit actionMean actionStd pGain dGain e
                Hwf H1 H2 H3 H4) as Hwf1.
  exists (restarted (configured gcInit gvInit actionMean actionStd pGain dGain e)).
  split.
  - rewrite (bind_returned _ _ _ _ _
               (setInitConstants_run _ _ _ _ _ _ e H1 H2 H3 H4 H5 H6)).
    apply (reset_run L), Hwf1.
  - destruct (restarted_observation L _ Hwf1) as (Ho & Hc & Hv).
    rewrite Ho, Hc, Hv. repeat split.
Qed.

(** X15: the velocity term of the reward is 0.3 times the forward
    velocity below 4 and 1.2 everywhere else: at 4 and above, at plus
    infinity, and also when the velocity is not a number, because
    [std::min(4.0, v)] is 4.0 unless [v < 4.0]. *)
Theorem velocity_term_cases (v : float) :
  ((v <? 4)%float = true -> velocity_term v = (0.3 * v)%float) /\
  ((v <? 4)%float = false -> velocity_term v = 1.2%float) /\
  velocity_term nan = 1.2%float /\
  velocity_term infinity = 1.2%float /\
  velocity_term neg_infinity = neg_infinity.
Proof.
  split; [|split; [apply velocity_term_capped|]].
  - intros H. unfold velocity_term, Double.std_min. rewrite H. reflexivity.
  - repeat split; vm_compute; reflexivity.
Qed.

(** X16: [step] assigns [pTarget_], the state, the base velocities and
    the observation, and nothing else: the initial state, the action
    mean and scale, the velocity target, the time steps and the members
    fixed at construction are after a [step] what they were before, and
    the reward returned is the one of the members it leaves. *)
Theorem step_frame (L : RaisimLaws) (action : list Double.float32)
    (e e' : WalkerEnv) (r : Double.float32) :
  reachable c0 s0 d0 e ->
  step action e = (Returned r, e') ->
  r = reward e' /\
  (gcInit_ e', gvInit_ e', actionMean_ e', actionStd_ e', vTarget_ e')
  = (gcInit_ e, gvInit_ e, actionMean_ e, actionStd_ e, vTarget_ e) /\
  (simulation_dt_ e', control_dt_ e') = (simulation_dt_ e, control_dt_ e) /\
  fixed e' = fixed e.
Proof.
  intros Hr H. pose proof (reachable_wf c0 s0 d0 L e Hr) as Hwf.
  apply (step_inv L) in H as (_ & -> & ->); [|exact Hwf].
  repeat split.
Qed.

End Operations.

(** ** These on the small engine *)

Lemma constructor_members_witness :
  constructed (-10) 0.005 0.02 "robot.urdf" Toy.env0.
Proof.
  exact (constructor_members (-10) 0.005 0.02 "robot.urdf" false Toy.env0
           Toy_env0_new).
Defined.

Lemma constructor_gains_witness :
  world_ Toy.env_vis
  = robot_setGeneralizedForce (replicate (Z.to_nat (gvDim_ Toy.env_vis)) 0%float)
      (robot_setPdGains
         (replicate 6 0%float ++ replicate (Z.to_nat (nJoints_ Toy.env_vis)) 50%float)
         (replicate 6 0%float ++ replicate (Z.to_nat (nJoints_ Toy.env_vis)) 0.2%float)
         (loaded "robot.urdf")).
Proof.
  exact (constructor_gains (-10) 0.005 0.02 "robot.urdf" true Toy.env_vis
           Toy_env_vis_new).
Defined.

Lemma server_iff_visualizable_witness :
  server_ Toy.env_vis = None <-> visualizable_ Toy.env_vis = false.
Proof.
  exact (server_iff_visualizable (-10) 0.005 0.02 Toy_laws Toy.env_vis
           Toy_env_vis_reachable).
Defined.

Lemma reachable_invariant_witness : wf (Toy.env_timing 0.875 0.5).
Proof.
  exact (reachable_invariant (-10) 0.005 0.02 Toy_laws _
           (Toy_env_timing_reachable 0.875 0.5)).
Defined.

Lemma fixed_for_life_witness :
  fixed (stepped Toy.action0 Toy.env_vis) = fixed Toy.env_vis /\
  getObDim (stepped Toy.action0 Toy.env_vis)
  = (Returned (2 * gvDim_ Toy.env_vis - 2), stepped Toy.action0 Toy.env_vis) /\
  getActionDim (stepped Toy.action0 Toy.env_vis)
  = (Returned (gvDim_ Toy.env_vis - 6), stepped Toy.action0 Toy.env_vis) /\
  (forall resourceDir visualizable e0,
     WalkerEnv_new (-10) 0.005 0.02 resourceDir visualizable = (Returned tt, e0) ->
     (resourceDir_ e0, visualizable_ e0) = (resourceDir, visualizable)).
Proof.
  apply (fixed_for_life (-10) 0.005 0.02 Toy_laws (Call_step Toy.action0)
           Toy.env_vis (stepped Toy.action0 Toy.env_vis)).
  - exact Toy_env_vis_reachable.
  - vm_compute. reflexivity.
Defined.

Lemma step_wrong_size_witness :
  ((exists r e', step [1%float] Toy.env0 = (Returned r, e'))
   <-> Eigen.size [1%float] = actionDim_ Toy.env0) /\
  (Eigen.size [1%float] <> actionDim_ Toy.env0 ->
   step [1%float] Toy.env0 = (Aborted (AssertionFailed "eigen_assert"), Toy.env0)).
Proof.
  exact (step_wrong_size (-10) 0.005 0.02 Toy_laws [1%float] Toy.env0
           Toy_env0_reachable).
Defined.

Lemma observe_returns_witness :
  (Eigen.size (replicate 34 0%float) = obDim_ Toy.env0 ->
   observe (replicate 34 0%float) Toy.env0
   = (Returned (map Double.to_float (obDouble_ Toy.env0)), Toy.env0) /\
   Eigen.size (map Double.to_float (obDouble_ Toy.env0)) = obDim_ Toy.env0) /\
  (Eigen.size (replicate 34 0%float) <> obDim_ Toy.env0 ->
   observe (replicate 34 0%float) Toy.env0
   = (Aborted (AssertionFailed "eigen_assert"), Toy.env0)) /\
  (forall r e', observe (replicate 34 0%float) Toy.env0 = (Returned r, e') ->
                Eigen.size (replicate 34 0%float) = obDim_ Toy.env0 /\ e' = Toy.env0).
Proof.
  exact (observe_returns (-10) 0.005 0.02 Toy_laws (replicate 34 0%float) Toy.env0
           Toy_env0_reachable).
Defined.

Lemma time_steps_then_step_witness :
  exists r e',
    (setControlTimeStep 0.03;; setSimulationTimeStep 0.01;; step Toy.action0)
      Toy.env0 = (Returned r, e') /\
    getControlTimeStep e' = (Returned 0.03%float, e') /\
    getSimulationTimeStep e' = (Returned 0.01%float, e') /\
    world_ e'
    = Nat.iter (Z.to_nat (loop_bound 0.03 0.01)) world_integrate
        (robot_setPdTarget (pTarget_ e') (vTarget_ e')
           (world_setTimeStep 0.01 (world_ Toy.env0))).
Proof.
  apply (time_steps_then_step (-10) 0.005 0.02 Toy_laws 0.03 0.01 Toy.action0
           Toy.env0 Toy_env0_reachable).
  reflexivity.
Defined.

Lemma visualization_with_server_witness :
  exists srv,
    server_ Toy.env_vis = Some srv /\
    turnOffVisualization Toy.env_vis
    = (Returned tt, set_server_ (Some (server_hibernate srv)) Toy.env_vis) /\
    turnOnVisualization Toy.env_vis
    = (Returned tt, set_server_ (Some (server_wakeup srv)) Toy.env_vis) /\
    startRecordingVideo "run.mp4" Toy.env_vis
    = (Returned tt,
       set_server_ (Some (server_startRecordingVideo "run.mp4" srv)) Toy.env_vis) /\
    stopRecordingVideo Toy.env_vis
    = (Returned tt, set_server_ (Some (server_stopRecordingVideo srv)) Toy.env_vis).
Proof.
  apply (visualization_with_server (-10) 0.005 0.02 Toy_laws Toy.env_vis "run.mp4"
           Toy_env_vis_reachable).
  reflexivity.
Defined.

Lemma reset_restores_witness :
  exists e',
    reset Toy.env0 = (Returned tt, e') /\
    world_ e' = robot_setState (gcInit_ Toy.env0) (gvInit_ Toy.env0) (world_ Toy.env0) /\
    (gc_ e', gv_ e') = (gcInit_ Toy.env0, gvInit_ Toy.env0) /\
    obDouble_ e'
    = observation_layout (Z.to_nat (nJoints_ Toy.env0)) (gcInit_ Toy.env0)
        (gvInit_ Toy.env0) /\
    (pTarget_ e', vTarget_ e') = (pTarget_ Toy.env0, vTarget_ Toy.env0) /\
    (gcInit_ e', gvInit_ e', actionMean_ e', actionStd_ e')
    = (gcInit_ Toy.env0, gvInit_ Toy.env0, actionMean_ Toy.env0, actionStd_ Toy.env0).
Proof.
  exact (reset_restores (-10) 0.005 0.02 Toy_laws Toy.env0 Toy_env0_reachable).
Defined.

Lemma setInitConstants_then_reset_witness :
  exists e',
    (setInitConstants (replicate 19 1%float) (replicate 18 2%float)
       (replicate 12 0.5%float) (replicate 12 0.1%float)
       (replicate 18 40%float) (replicate 18 1%float);; reset) Toy.env0
    = (Returned tt, e') /\
    (gc_ e', gv_ e') = (replicate 19 1%float, replicate 18 2%float) /\
    obDouble_ e'
    = observation_layout (Z.to_nat (nJoints_ Toy.env0)) (replicate 19 1%float)
        (replicate 18 2%float) /\
    (actionMean_ e', actionStd_ e')
    = (replicate 12 0.5%float, replicate 12 0.1%float).
Proof.
  apply (setInitConstants_then_reset (-10) 0.005 0.02 Toy_laws
           (replicate 19 1%float) (replicate 18 2%float)
           (replicate 12 0.5%float) (replicate 12 0.1%float)
           (replicate 18 40%float) (replicate 18 1%float) Toy.env0
           Toy_env0_reachable); reflexivity.
Defined.

Lemma step_frame_witness :
  reward (stepped Toy.action0 Toy.env0) = reward (stepped Toy.action0 Toy.env0) /\
  (gcInit_ (stepped Toy.action0 Toy.env0), gvInit_ (stepped Toy.action0 Toy.env0),
   actionMean_ (stepped Toy.action0 Toy.env0),
   actionStd_ (stepped Toy.action0 Toy.env0),
   vTarget_ (stepped Toy.action0 Toy.env0))
  = (gcInit_ Toy.env0, gvInit_ Toy.env0, actionMean_ Toy.env0,
     actionStd_ Toy.env0, vTarget_ Toy.env0) /\
  (simulation_dt_ (stepped Toy.action0 Toy.env0),
   control_dt_ (stepped Toy.action0 Toy.env0))
  = (simulation_dt_ Toy.env0, control_dt_ Toy.env0) /\
  fixed (stepped Toy.action0 Toy.env0) = fixed Toy.env0.
Proof.
  apply (step_frame (-10) 0.005 0.02 Toy_laws Toy.action0 Toy.env0 _ _
           Toy_env0_reachable).
  apply (step_run Toy_laws).
  - exact (reachable_wf (-10) 0.005 0.02 Toy_laws _ Toy_env0_reachable).
  - reflexivity.
Defined.
